(** * macos-network-metrics: a shallow embedding of [src/main.c]

    The program polls the macOS routing sysctl for the per-interface link
    statistics, sums four counters over all interfaces and prints, once a
    second, the totals and the deltas against the previous sample.

    Conventions of the embedding:
    - a [uint64_t] is a [Z] with the wrap-around modulo 2^64 written out;
    - the raw sysctl buffer is a [list byte]; pointers into it are offsets
      ([nat]) from its start, multi-byte fields are little-endian (both macOS
      targets are);
    - the operating system is an oracle over an abstract [World];
    - a computation threads the world, logs its observable events in order
      and ends in an [outcome]. *)

From Stdlib Require Import ZArith String Bool Lia PeanoNat List Permutation.
From Stdlib.Strings Require Import Byte.
Import ListNotations.

Local Open Scope Z_scope.

(** ** Unsigned 64-bit arithmetic *)

Definition UINT64_MOD : Z := 2 ^ 64.

Definition wrap64 (z : Z) : Z := z mod UINT64_MOD.

(** [a + b] on [uint64_t]. *)
Definition add64 (a b : Z) : Z := wrap64 (a + b).

(** [a - b] on [uint64_t]. *)
Definition sub64 (a b : Z) : Z := wrap64 (a - b).

Definition is_uint64 (z : Z) : Prop := 0 <= z < UINT64_MOD.

(** ** Data model *)

(** [struct NetworkMetrics] (main.c, lines 34-37). *)
Record NetworkMetrics : Type := mkNetworkMetrics {
  totalInputBytes : Z;
  totalOutputBytes : Z;
  totalInputPackets : Z;
  totalOutputPackets : Z
}.

(** [(struct NetworkMetrics){}]. *)
Definition zero_metrics : NetworkMetrics := mkNetworkMetrics 0 0 0 0.

Definition wf_metrics (m : NetworkMetrics) : Prop :=
  is_uint64 (totalInputBytes m) /\ is_uint64 (totalOutputBytes m) /\
  is_uint64 (totalInputPackets m) /\ is_uint64 (totalOutputPackets m).

(** The four fields of [struct if_data64] the program reads. *)
Record if_data64 : Type := mk_if_data64 {
  ifi_ipackets : Z;
  ifi_opackets : Z;
  ifi_ibytes : Z;
  ifi_obytes : Z
}.

(** [struct ifmibdata], of which only [ifmd_data] is read. *)
Record ifmibdata : Type := mk_ifmibdata {
  ifmd_data : if_data64
}.

(** The four [+=] of lines 93-96 and of lines 99-102: packets in, packets
    out, bytes in, bytes out, each on its own 64-bit accumulator. *)
Definition accumulate (metrics : NetworkMetrics) (d : if_data64) : NetworkMetrics :=
  {| totalInputBytes := add64 (totalInputBytes metrics) (ifi_ibytes d);
     totalOutputBytes := add64 (totalOutputBytes metrics) (ifi_obytes d);
     totalInputPackets := add64 (totalInputPackets metrics) (ifi_ipackets d);
     totalOutputPackets := add64 (totalOutputPackets metrics) (ifi_opackets d) |}.

(** ** The raw buffer *)

Definition byte_at (buffer : list byte) (off : nat) : option Z :=
  option_map (fun b => Z.of_N (Byte.to_N b)) (nth_error buffer off).

(** A little-endian unsigned load of [width] bytes at [off]; [None] when
    one of the bytes lies outside the buffer. *)
Fixpoint load_le (buffer : list byte) (off width : nat) : option Z :=
  match width with
  | O => Some 0
  | S w =>
      match byte_at buffer off, load_le buffer (S off) w with
      | Some lo, Some hi => Some (lo + 256 * hi)
      | _, _ => None
      end
  end.

(** What the system headers [<net/if.h>], [<net/route.h>] and
    [<net/if_var.h>] fix and the repository does not contain: the value of
    the type tag and the byte offsets of the fields the program reads. The
    three header fields are those of [struct if_msghdr] (shared with
    [struct if_msghdr2]); the four counters are those of [ifm_data] inside
    [struct if_msghdr2]. *)
Record Layout : Type := mkLayout {
  RTM_IFINFO2 : Z;
  ifm_msglen_off : nat;
  ifm_type_off : nat;
  ifm_index_off : nat;
  ifi_ipackets_off : nat;
  ifi_opackets_off : nat;
  ifi_ibytes_off : nat;
  ifi_obytes_off : nat
}.

(** The layout of the macOS SDK (LP64, [if_data64] packed to 4 bytes). *)
Definition macos_layout : Layout :=
  {| RTM_IFINFO2 := 18;
     ifm_msglen_off := 0;
     ifm_type_off := 3;
     ifm_index_off := 12;
     ifi_ipackets_off := 56;
     ifi_opackets_off := 72;
     ifi_ibytes_off := 96;
     ifi_obytes_off := 104 |}.

(** ** Events and outcomes *)

(** The two sysctl names the program builds: [mib] (lines 40-47) and [mib2]
    (lines 73-80), the latter keyed by the interface index. *)
Inductive sysctl_name : Type :=
| NET_RT_IFLIST2
| IFMIB_IFDATA (ifm_index : Z).

Inductive event : Type :=
| EvSysctl (name : sysctl_name) (ok : bool)
| EvStderr (format : string) (errno : Z)
| EvStdout (format : string) (args : list Z)
| EvSleep (seconds : Z).

Inductive outcome (A : Type) : Type :=
| Done (a : A)
| Exited (status : Z)
| Undefined
| OutOfFuel.

Arguments Done {A} a.
Arguments Exited {A} status.
Arguments Undefined {A}.
Arguments OutOfFuel {A}.

(** The operating system: each call sees the current world and may change
    it. A failing call yields its [errno] on the left. *)
Record OS (World : Type) : Type := mkOS {
  (* sysctl(mib, 6, NULL, &length, NULL, 0) *)
  sysctl_size : World -> (Z + nat) * World;
  (* sysctl(mib, 6, buffer, &length, NULL, 0): the bytes written, whose
     number is the new [length] *)
  sysctl_iflist : nat -> World -> (Z + list byte) * World;
  (* sysctl(mib2, 6, &mibdata, &mibdata_len, NULL, 0) *)
  sysctl_ifdata : Z -> World -> (Z + ifmibdata) * World
}.

Arguments sysctl_size {World} _ _.
Arguments sysctl_iflist {World} _ _ _.
Arguments sysctl_ifdata {World} _ _ _.

Definition is_left {A B : Type} (x : A + B) : bool :=
  match x with inl _ => true | inr _ => false end.

Section Program.

Variable World : Type.
Variable os : OS World.
Variable L : Layout.

(** ** The computation monad: world passing, an event log, an outcome *)

Definition M (A : Type) : Type := World -> outcome A * World * list event.

Definition ret {A : Type} (a : A) : M A := fun w => (Done a, w, []).

Definition bind {A B : Type} (m : M A) (f : A -> M B) : M B :=
  fun w =>
    match m w with
    | (Done a, w1, t1) =>
        match f a w1 with
        | (o, w2, t2) => (o, w2, t1 ++ t2)
        end
    | (Exited s, w1, t1) => (Exited s, w1, t1)
    | (Undefined, w1, t1) => (Undefined, w1, t1)
    | (OutOfFuel, w1, t1) => (OutOfFuel, w1, t1)
    end.

Notation "x <- m ;; k" := (bind m (fun x => k))
  (at level 61, m at next level, right associativity).
Notation "m ;; k" := (bind m (fun _ => k))
  (at level 61, right associativity).

Definition emit (e : event) : M unit := fun w => (Done tt, w, [e]).

(** [exit(status)]. *)
Definition exit {A : Type} (status : Z) : M A := fun w => (Exited status, w, []).

Definition out_of_fuel {A : Type} : M A := fun w => (OutOfFuel, w, []).

(** A read through a pointer into the buffer; outside the allocation the C
    program has no defined behaviour. *)
Definition load (buffer : list byte) (off width : nat) : M Z :=
  fun w =>
    match load_le buffer off width with
    | Some v => (Done v, w, [])
    | None => (Undefined, w, [])
    end.

Definition printf (format : string) (args : list Z) : M unit :=
  emit (EvStdout format args).

(** [fprintf(stderr, format, strerror(errno))]. *)
Definition fprintf_stderr (format : string) (errno : Z) : M unit :=
  emit (EvStderr format errno).

Definition sleep (seconds : Z) : M unit := emit (EvSleep seconds).

Definition call_sysctl_size : M (Z + nat) :=
  fun w =>
    match sysctl_size os w with
    | (r, w') => (Done r, w', [EvSysctl NET_RT_IFLIST2 (negb (is_left r))])
    end.

Definition call_sysctl_iflist (length : nat) : M (Z + list byte) :=
  fun w =>
    match sysctl_iflist os length w with
    | (r, w') => (Done r, w', [EvSysctl NET_RT_IFLIST2 (negb (is_left r))])
    end.

Definition call_sysctl_ifdata (ifm_index : Z) : M (Z + ifmibdata) :=
  fun w =>
    match sysctl_ifdata os ifm_index w with
    | (r, w') => (Done r, w', [EvSysctl (IFMIB_IFDATA ifm_index) (negb (is_left r))])
    end.

(** ** [GetNetworkMetrics] (main.c, lines 39-110)

    [malloc] is taken to succeed, and the buffer is never freed. *)

(** The fields of the record header at [next]. *)
Definition ifm_msglen (buffer : list byte) (next : nat) : option Z :=
  load_le buffer (next + ifm_msglen_off L) 2.

Definition ifm_type (buffer : list byte) (next : nat) : option Z :=
  load_le buffer (next + ifm_type_off L) 1.

Definition ifm_index (buffer : list byte) (next : nat) : option Z :=
  load_le buffer (next + ifm_index_off L) 2.

(** [message2->ifm_data], the four counters read at lines 99-102. *)
Definition ifm_data (buffer : list byte) (next : nat) : option if_data64 :=
  match load_le buffer (next + ifi_ipackets_off L) 8,
        load_le buffer (next + ifi_opackets_off L) 8,
        load_le buffer (next + ifi_ibytes_off L) 8,
        load_le buffer (next + ifi_obytes_off L) 8 with
  | Some ip, Some op, Some ib, Some ob => Some (mk_if_data64 ip op ib ob)
  | _, _, _, _ => None
  end.

(** One execution of the loop body (lines 63-106) with the cursor at
    [next]: the new cursor and the new accumulator. *)
Definition scan_body (useIfmibData : bool) (buffer : list byte)
    (next : nat) (metrics : NetworkMetrics) : M (nat * NetworkMetrics) :=
  type <- load buffer (next + ifm_type_off L) 1 ;;
  metrics' <-
    (if type =? RTM_IFINFO2 L then
       if useIfmibData then
         index <- load buffer (next + ifm_index_off L) 2 ;;
         r <- call_sysctl_ifdata index ;;
         match r with
         | inl errno => fprintf_stderr "sysctl: %s\n" errno ;; exit 1
         | inr mibdata => ret (accumulate metrics (ifmd_data mibdata))
         end
       else
         ipackets <- load buffer (next + ifi_ipackets_off L) 8 ;;
         opackets <- load buffer (next + ifi_opackets_off L) 8 ;;
         ibytes <- load buffer (next + ifi_ibytes_off L) 8 ;;
         obytes <- load buffer (next + ifi_obytes_off L) 8 ;;
         ret (accumulate metrics (mk_if_data64 ipackets opackets ibytes obytes))
     else ret metrics) ;;
  msglen <- load buffer (next + ifm_msglen_off L) 2 ;;
  ret ((next + Z.to_nat msglen)%nat, metrics').

(** The [for] loop of lines 62-107. The test [next < end] comes first; the
    fuel bounds the number of executions of the body, and running out of it
    stands for a loop that is still running. *)
Fixpoint scan_loop (fuel : nat) (useIfmibData : bool) (buffer : list byte)
    (next : nat) (metrics : NetworkMetrics) : M (nat * NetworkMetrics) :=
  if (next <? length buffer)%nat then
    match fuel with
    | O => out_of_fuel
    | S fuel' =>
        st <- scan_body useIfmibData buffer next metrics ;;
        scan_loop fuel' useIfmibData buffer (fst st) (snd st)
    end
  else ret (next, metrics).

Definition GetNetworkMetrics (fuel : nat) (useIfmibData : bool) : M NetworkMetrics :=
  r <- call_sysctl_size ;;
  match r with
  | inl errno => fprintf_stderr "sysctl: %s\n" errno ;; exit 1
  | inr length =>
      r' <- call_sysctl_iflist length ;;
      match r' with
      | inl errno => fprintf_stderr "sysctl: %s\n" errno ;; exit 1
      | inr buffer =>
          st <- scan_loop fuel useIfmibData buffer 0%nat zero_metrics ;;
          ret (snd st)
      end
  end.

(** ** [main] (lines 112-150) *)

(** Lines 120-144: the report of one iteration. *)
Definition report (lastMetrics currentMetrics : NetworkMetrics) : M unit :=
  printf "--- PACKETS ---\n" [] ;;
  let inputPacketsDelta :=
    sub64 (totalInputPackets currentMetrics) (totalInputPackets lastMetrics) in
  let outputPacketsDelta :=
    sub64 (totalOutputPackets currentMetrics) (totalOutputPackets lastMetrics) in
  printf "  Input (Download): %llu (total), %llu (delta)\n"
    [totalInputPackets currentMetrics; inputPacketsDelta] ;;
  printf "  Output (Upload): %llu (total), %llu (delta)\n"
    [totalOutputPackets currentMetrics; outputPacketsDelta] ;;
  printf "--- BYTES ---\n" [] ;;
  let inputBytesDelta :=
    sub64 (totalInputBytes currentMetrics) (totalInputBytes lastMetrics) in
  let outputBytesDelta :=
    sub64 (totalOutputBytes currentMetrics) (totalOutputBytes lastMetrics) in
  printf "  Input (Download): %llu (total), %llu (delta)\n"
    [totalInputBytes currentMetrics; inputBytesDelta] ;;
  printf "  Output (Upload): %llu (total), %llu (delta)\n"
    [totalOutputBytes currentMetrics; outputBytesDelta] ;;
  (if totalInputBytes currentMetrics <? totalInputBytes lastMetrics then
     printf "!! INPUT OVERFLOW !!\n" [] ;;
     printf "Before: %llu, After: %llu, Difference: %llu\n"
       [totalInputBytes lastMetrics; totalInputBytes currentMetrics;
        sub64 (totalInputBytes lastMetrics) (totalInputBytes currentMetrics)]
   else ret tt) ;;
  (if totalOutputBytes currentMetrics <? totalOutputBytes lastMetrics then
     printf "!! OUTPUT OVERFLOW !!\n" [] ;;
     printf "Before: %llu, After: %llu, Difference: %llu\n"
       [totalOutputBytes lastMetrics; totalOutputBytes currentMetrics;
        sub64 (totalOutputBytes lastMetrics) (totalOutputBytes currentMetrics)]
   else ret tt) ;;
  printf "\n\n" [].

(** One iteration of [while (1)] (lines 117-146); its value is the new
    [lastMetrics]. *)
Definition loop_iteration (fuel : nat) (useIfmibData : bool)
    (lastMetrics : NetworkMetrics) : M NetworkMetrics :=
  sleep 1 ;;
  currentMetrics <- GetNetworkMetrics fuel useIfmibData ;;
  report lastMetrics currentMetrics ;;
  ret currentMetrics.

(** The first [iterations] iterations of [while (1)]: the loop itself has
    no exit, so a run is described by its finite prefixes. *)
Fixpoint main_loop (iterations fuel : nat) (useIfmibData : bool)
    (lastMetrics : NetworkMetrics) : M NetworkMetrics :=
  match iterations with
  | O => ret lastMetrics
  | S n =>
      currentMetrics <- loop_iteration fuel useIfmibData lastMetrics ;;
      main_loop n fuel useIfmibData currentMetrics
  end.

Definition main (iterations fuel : nat) : M NetworkMetrics :=
  let useIfmibData := true in
  lastMetrics <- GetNetworkMetrics fuel useIfmibData ;;
  main_loop iterations fuel useIfmibData lastMetrics.

(** ** Records, as the specification sees them *)

(** The classification of one record: [GenericInfo] carries the interface
    index and the embedded counters, [Other] carries nothing. *)
Inductive InterfaceRecord : Type :=
| GenericInfo (index : Z) (embedded : if_data64)
| Other.

(** The record held by the bytes [r], when every field the program would
    read of it lies inside [r]. *)
Definition parse_record (r : list byte) : option InterfaceRecord :=
  match ifm_type r 0 with
  | Some type =>
      if type =? RTM_IFINFO2 L then
        match ifm_index r 0, ifm_data r 0 with
        | Some index, Some d => Some (GenericInfo index d)
        | _, _ => None
        end
      else Some Other
  | None => None
  end.

(** A well-formed record: its declared length is its own length and the
    fields read of it lie inside it. *)
Definition well_formed (r : list byte) : bool :=
  match ifm_msglen r 0, parse_record r with
  | Some len, Some _ => (Z.to_nat len =? length r)%nat
  | _, _ => false
  end.

Definition classify (r : list byte) : InterfaceRecord :=
  match parse_record r with
  | Some rec => rec
  | None => Other
  end.

Definition is_generic (rec : InterfaceRecord) : bool :=
  match rec with GenericInfo _ _ => true | Other => false end.

(** The interface indices and the embedded counters of the [GenericInfo]
    records, in order. *)
Fixpoint generic_indices (recs : list InterfaceRecord) : list Z :=
  match recs with
  | [] => []
  | GenericInfo index _ :: recs' => index :: generic_indices recs'
  | Other :: recs' => generic_indices recs'
  end.

Fixpoint embedded_counters (recs : list InterfaceRecord) : list if_data64 :=
  match recs with
  | [] => []
  | GenericInfo _ d :: recs' => d :: embedded_counters recs'
  | Other :: recs' => embedded_counters recs'
  end.

(** The specification's SourceSelector: the counters of one record. *)
Definition select_counters (useExtendedData : bool) (rec : InterfaceRecord)
  : M (option if_data64) :=
  match rec with
  | Other => ret None
  | GenericInfo index embedded =>
      if useExtendedData then
        r <- call_sysctl_ifdata index ;;
        match r with
        | inl errno => fprintf_stderr "sysctl: %s\n" errno ;; exit 1
        | inr mibdata => ret (Some (ifmd_data mibdata))
        end
      else ret (Some embedded)
  end.

(** The specification's MetricsAggregator over a sequence of records. *)
Fixpoint aggregate_records (useExtendedData : bool) (recs : list InterfaceRecord)
    (metrics : NetworkMetrics) : M NetworkMetrics :=
  match recs with
  | [] => ret metrics
  | rec :: recs' =>
      c <- select_counters useExtendedData rec ;;
      aggregate_records useExtendedData recs'
        (match c with Some d => accumulate metrics d | None => metrics end)
  end.

(** The aggregation of a sequence of counter sets. *)
Definition aggregate (sets : list if_data64) : NetworkMetrics :=
  fold_left accumulate sets zero_metrics.

(** The answers of the secondary query to a sequence of indices, asked in
    order from the world [w]; a failed query contributes nothing. *)
Fixpoint extended_counters (indices : list Z) (w : World) : list if_data64 :=
  match indices with
  | [] => []
  | index :: indices' =>
      match sysctl_ifdata os index w with
      | (inr mibdata, w') => ifmd_data mibdata :: extended_counters indices' w'
      | (inl _, w') => extended_counters indices' w'
      end
  end.

(** The cursor positions the loop can reach in [buffer] from the cursor
    [start]: each step adds the declared length of the record under the
    cursor, as line 106 does. *)
Inductive reachable (buffer : list byte) (start : nat) : nat -> Prop :=
| reachable_start : reachable buffer start start
| reachable_step next len :
    reachable buffer start next ->
    (next < length buffer)%nat ->
    ifm_msglen buffer next = Some len ->
    reachable buffer start (next + Z.to_nat len)%nat.

(** A check of the declared lengths along the path of the cursor from
    [next]: every header met within [fuel] steps declares a strictly
    positive length, and the path ends within these steps. *)
Fixpoint lengths_positive (fuel : nat) (buffer : list byte) (next : nat) : bool :=
  if (next <? length buffer)%nat then
    match fuel with
    | O => false
    | S fuel' =>
        match ifm_msglen buffer next with
        | Some len =>
            (0 <? len) && lengths_positive fuel' buffer (next + Z.to_nat len)
        | None => true
        end
    end
  else true.

(** ** Observations on an event log *)

Definition is_stdout (e : event) : bool :=
  match e with EvStdout _ _ => true | _ => false end.

Definition is_ifdata_query (e : event) : bool :=
  match e with EvSysctl (IFMIB_IFDATA _) _ => true | _ => false end.

Definition is_ok_sysctl (e : event) : bool :=
  match e with EvSysctl _ true => true | _ => false end.

Definition stdout_of (t : list event) : list event := filter is_stdout t.

(** The (total, delta) pairs a log reports: the lines printed with two
    arguments, in order. *)
Fixpoint reported (t : list event) : list (Z * Z) :=
  match t with
  | [] => []
  | EvStdout _ [total; delta] :: t' => (total, delta) :: reported t'
  | _ :: t' => reported t'
  end.

(** The log of the two successful calls of the primary query. *)
Definition primary_ok : list event :=
  [EvSysctl NET_RT_IFLIST2 true; EvSysctl NET_RT_IFLIST2 true].

(** The log of one successful secondary query. *)
Definition query_ok (index : Z) : event := EvSysctl (IFMIB_IFDATA index) true.

(** The specification's warning for one direction: nothing unless the
    counter went down, else the banner and a line naming the value before,
    the value after and their difference. *)
Definition overflow_warning (banner : string) (before after : Z) : list event :=
  if after <? before then
    [EvStdout banner [];
     EvStdout "Before: %llu, After: %llu, Difference: %llu\n"
       [before; after; before - after]]
  else [].

Definition sum_Z (l : list Z) : Z := fold_right Z.add 0 l.

(** Ordinary growth of one counter, and of a sample. *)
Definition grows (previous current : Z) : Prop :=
  previous <= current /\ current - previous < 2 ^ 63.

Definition ordinary_growth (previous current : NetworkMetrics) : Prop :=
  grows (totalInputBytes previous) (totalInputBytes current) /\
  grows (totalOutputBytes previous) (totalOutputBytes current) /\
  grows (totalInputPackets previous) (totalInputPackets current) /\
  grows (totalOutputPackets previous) (totalOutputPackets current).

(** The outcome, the final world and the log of a run. *)
Definition outcome_of {A : Type} (r : outcome A * World * list event) : outcome A :=
  fst (fst r).

Definition world_of {A : Type} (r : outcome A * World * list event) : World :=
  snd (fst r).

Definition log_of {A : Type} (r : outcome A * World * list event) : list event :=
  snd r.

(** The shape of every run of a pass: it logs successful sysctl calls only,
    unless it ends in [exit(1)] right after one failed sysctl call and its
    diagnostic on stderr. *)
Definition tidy {A : Type} (r : outcome A * World * list event) : Prop :=
  match outcome_of r with
  | Exited status =>
      status = 1 /\
      exists t name errno,
        log_of r = t ++ [EvSysctl name false; EvStderr "sysctl: %s\n" errno] /\
        forallb is_ok_sysctl t = true
  | _ => forallb is_ok_sysctl (log_of r) = true
  end.

(** A run that ended: the loop it stands for is not still running. *)
Definition halts {A : Type} (r : outcome A * World * list event) : Prop :=
  outcome_of r <> OutOfFuel.

(** A run that made no secondary query. *)
Definition quiet {A : Type} (r : outcome A * World * list event) : Prop :=
  filter is_ifdata_query (log_of r) = [].

End Program.

Arguments M World A : clear implicits.
Arguments ret {World A} a _.
Arguments bind {World A B} m f _.
Arguments load {World} buffer off width _.
Arguments call_sysctl_ifdata {World} os ifm_index _.
Arguments scan_body {World} os L useIfmibData buffer next metrics _.
Arguments scan_loop {World} os L fuel useIfmibData buffer next metrics _.
Arguments GetNetworkMetrics {World} os L fuel useIfmibData _.
Arguments report {World} lastMetrics currentMetrics _.
Arguments loop_iteration {World} os L fuel useIfmibData lastMetrics _.
Arguments main_loop {World} os L iterations fuel useIfmibData lastMetrics _.
Arguments main {World} os L iterations fuel _.
Arguments select_counters {World} os useExtendedData rec _.
Arguments aggregate_records {World} os useExtendedData recs metrics _.
Arguments extended_counters {World} os indices w.
Arguments outcome_of {World A} r.
Arguments world_of {World A} r.
Arguments log_of {World A} r.
Arguments tidy {World A} r.
Arguments halts {World A} r.
Arguments quiet {World A} r.

(** ** Concrete buffers and a concrete operating system *)

Definition byte_of_Z (z : Z) : byte :=
  match Byte.of_N (Z.to_N (z mod 256)) with
  | Some b => b
  | None => x00
  end.

(** The little-endian bytes of [v]. *)
Fixpoint store_le (v : Z) (width : nat) : list byte :=
  match width with
  | O => []
  | S w => byte_of_Z v :: store_le (v / 256) w
  end.

(** [r] with [bs] written at [off]; what does not fit is dropped. *)
Definition poke (r : list byte) (off : nat) (bs : list byte) : list byte :=
  firstn (length r) (firstn off r ++ bs ++ skipn (off + length bs) r).

(** A record of [size] bytes under the layout [L], zero except for the
    fields the program reads. *)
Definition encode_record (L : Layout) (size : nat) (msglen type index : Z)
    (d : if_data64) : list byte :=
  let r0 := repeat x00 size in
  let r1 := poke r0 (ifm_msglen_off L) (store_le msglen 2) in
  let r2 := poke r1 (ifm_type_off L) (store_le type 1) in
  let r3 := poke r2 (ifm_index_off L) (store_le index 2) in
  let r4 := poke r3 (ifi_ipackets_off L) (store_le (ifi_ipackets d) 8) in
  let r5 := poke r4 (ifi_opackets_off L) (store_le (ifi_opackets d) 8) in
  let r6 := poke r5 (ifi_ibytes_off L) (store_le (ifi_ibytes d) 8) in
  poke r6 (ifi_obytes_off L) (store_le (ifi_obytes d) 8).

(** An operating system whose world is the number of buffers fetched so
    far: the primary query answers [snapshot w], the secondary query
    [table w index]. *)
Definition table_os (snapshot : nat -> Z + list byte)
    (table : nat -> Z -> Z + ifmibdata) : OS nat :=
  {| sysctl_size := fun w =>
       (match snapshot w with
        | inl errno => inl errno
        | inr buffer => inr (length buffer)
        end, w);
     sysctl_iflist := fun _ w => (snapshot w, S w);
     sysctl_ifdata := fun index w => (table w index, w) |}.

(** An Ethernet interface (index 4), the loopback interface (index 1) and
    an address record ([RTM_NEWADDR], type 12) between them. *)
Definition en0_record : list byte :=
  encode_record macos_layout 160 160 18 4 (mk_if_data64 10 20 1500 3000).

Definition addr_record : list byte :=
  encode_record macos_layout 20 20 12 4 (mk_if_data64 0 0 0 0).

Definition lo0_record : list byte :=
  encode_record macos_layout 160 160 18 1 (mk_if_data64 1 2 100 200).

Definition sample_records : list (list byte) :=
  [en0_record; addr_record; lo0_record].

(** The extended counters grow by [1000 * w] bytes with the world. *)
Definition sample_table (w : nat) (index : Z) : Z + ifmibdata :=
  if index =? 4 then
    inr (mk_ifmibdata (mk_if_data64 11 21 (5000000000 + 1000 * Z.of_nat w) 7000000000))
  else if index =? 1 then
    inr (mk_ifmibdata (mk_if_data64 1 2 100 200))
  else inl 2.

Definition sample_os : OS nat :=
  table_os (fun _ => inr (concat sample_records)) sample_table.

(** A lone record that declares 200 bytes in a buffer of 16, and a lone
    record that declares no bytes at all. *)
Definition overrunning_record : list byte :=
  encode_record macos_layout 16 200 14 4 (mk_if_data64 0 0 0 0).

Definition zero_length_record : list byte :=
  encode_record macos_layout 16 0 14 4 (mk_if_data64 0 0 0 0).

Definition overrunning_os : OS nat :=
  table_os (fun _ => inr overrunning_record) sample_table.

Definition zero_length_os : OS nat :=
  table_os (fun _ => inr zero_length_record) sample_table.

(** The primary query fails with ENOMEM (12) on its third fetch; the
    secondary query fails with ENOENT (2) on every interface. *)
Definition failing_primary_os : OS nat :=
  table_os (fun w => if (w <? 2)%nat then inr (concat sample_records) else inl 12)
           sample_table.

Definition failing_secondary_os : OS nat :=
  table_os (fun _ => inr (concat sample_records)) (fun _ _ => inl 2).

(** A buffer in which a well-formed record is followed by the overrunning
    one, and one in which it is followed by the record of length zero. *)
Definition overrun_buffer : list byte := addr_record ++ overrunning_record.

Definition stuck_buffer : list byte := addr_record ++ zero_length_record.

(** Two consecutive samples: the input-byte counter wrapped around, the
    other three grew; and two samples of ordinary growth. *)
Definition wrapped_previous : NetworkMetrics :=
  mkNetworkMetrics (2 ^ 64 - 5) 100 7 7.

Definition wrapped_current : NetworkMetrics :=
  mkNetworkMetrics 3 250 9 9.

Definition steady_previous : NetworkMetrics :=
  mkNetworkMetrics 10 20 1 2.

Definition steady_current : NetworkMetrics :=
  mkNetworkMetrics 15 20 3 2.

(** ** Observations on a whole run *)

(** An event that is neither a failed sysctl call nor a line on stderr. *)
Definition is_calm (e : event) : bool :=
  match e with
  | EvSysctl _ false => false
  | EvStderr _ _ => false
  | _ => true
  end.

(** The shape of every run of the program: nothing fails and nothing goes
    to stderr, unless the run ends in [exit(1)] right after the one failed
    sysctl call and its diagnostic. *)
Definition orderly {World A : Type} (r : outcome A * World * list event) : Prop :=
  match outcome_of r with
  | Exited status =>
      status = 1 /\
      exists t name errno,
        log_of r = t ++ [EvSysctl name false; EvStderr "sysctl: %s\n" errno] /\
        forallb is_calm t = true
  | _ => forallb is_calm (log_of r) = true
  end.

(** The arguments of the calls of [sleep], in order. *)
Fixpoint sleeps (t : list event) : list Z :=
  match t with
  | [] => []
  | EvSleep seconds :: t' => seconds :: sleeps t'
  | _ :: t' => sleeps t'
  end.

(** The four (total, delta) pairs of one report, in the order of lines
    123, 124, 130 and 131. *)
Definition report_row (previous current : NetworkMetrics) : list (Z * Z) :=
  [(totalInputPackets current,
    sub64 (totalInputPackets current) (totalInputPackets previous));
   (totalOutputPackets current,
    sub64 (totalOutputPackets current) (totalOutputPackets previous));
   (totalInputBytes current,
    sub64 (totalInputBytes current) (totalInputBytes previous));
   (totalOutputBytes current,
    sub64 (totalOutputBytes current) (totalOutputBytes previous))].

(** The pairs reported for a sequence of samples, each compared with the
    one before it. *)
Fixpoint report_rows (previous : NetworkMetrics) (samples : list NetworkMetrics)
  : list (Z * Z) :=
  match samples with
  | [] => []
  | current :: rest => report_row previous current ++ report_rows current rest
  end.

(** The deltas of the [k]-th line of every report (0: input packets,
    1: output packets, 2: input bytes, 3: output bytes). *)
Fixpoint column (k : nat) (rows : list (Z * Z)) : list Z :=
  match rows with
  | a :: b :: c :: d :: rest => snd (nth k [a; b; c; d] (0, 0)) :: column k rest
  | _ => []
  end.

(** The field of a sample that the [k]-th line of a report is about. *)
Definition field (k : nat) (m : NetworkMetrics) : Z :=
  match k with
  | 0%nat => totalInputPackets m
  | 1%nat => totalOutputPackets m
  | 2%nat => totalInputBytes m
  | _ => totalOutputBytes m
  end.

(** The largest value of [ifm_msglen], an [unsigned short]. *)
Definition USHRT_MAX : Z := 65535.

(** A tail of three bytes, too short to hold the type field of a header,
    and an interface list made of address records only. *)
Definition truncated_tail : list byte := [x14; x00; x05].

Definition address_records : list (list byte) := [addr_record; addr_record].

Definition addresses_only_os : OS nat :=
  table_os (fun _ => inr (concat address_records)) sample_table.

(** The sample held after two iterations on [sample_os]. *)
Definition second_sample : NetworkMetrics :=
  mkNetworkMetrics 5000002100 7000000200 12 23.

(** ** The secondary queries of a pass, as the operating system sees them *)

(** The world after the secondary queries for [indices], asked in order
    from the world [w]. *)
Fixpoint world_after {World : Type} (os : OS World) (indices : list Z) (w : World)
  : World :=
  match indices with
  | [] => w
  | index :: indices' => world_after os indices' (snd (sysctl_ifdata os index w))
  end.

(** Whether the operating system answers every one of these queries. *)
Fixpoint all_answered {World : Type} (os : OS World) (indices : list Z) (w : World)
  : bool :=
  match indices with
  | [] => true
  | index :: indices' =>
      match sysctl_ifdata os index w with
      | (inr _, w') => all_answered os indices' w'
      | (inl _, _) => false
      end
  end.

(** The secondary query answers for the Ethernet interface and fails with
    ENOENT (2) for every other one. *)
Definition partly_failing_os : OS nat :=
  table_os (fun _ => inr (concat sample_records))
           (fun w index => if index =? 4 then sample_table w index else inl 2).

(** One interface whose extended input-byte counter wraps around between
    the second and the third fetch. *)
Definition wrapping_table (w : nat) (index : Z) : Z + ifmibdata :=
  if (w <=? 1)%nat then inr (mk_ifmibdata (mk_if_data64 7 7 (2 ^ 64 - 5) 100))
  else if (w <=? 2)%nat then inr (mk_ifmibdata (mk_if_data64 9 9 3 250))
  else inr (mk_ifmibdata (mk_if_data64 12 12 10 300)).

Definition wrapping_os : OS nat :=
  table_os (fun _ => inr en0_record) wrapping_table.

(** * Properties *)

Notation "x <- m ;; k" := (bind m (fun x => k))
  (at level 61, m at next level, right associativity).
Notation "m ;; k" := (bind m (fun _ => k))
  (at level 61, right associativity).

(** ** Arithmetic on 64 bits *)

Lemma UINT64_MOD_pos : 0 < UINT64_MOD.
Proof. reflexivity. Qed.

Lemma wrap64_range (z : Z) : is_uint64 (wrap64 z).
Proof. unfold is_uint64, wrap64. apply Z.mod_pos_bound, UINT64_MOD_pos. Qed.

Lemma wrap64_small (z : Z) : is_uint64 z -> wrap64 z = z.
Proof. unfold is_uint64, wrap64. intros H. now apply Z.mod_small. Qed.

Lemma sub64_no_wrap (a b : Z) :
  is_uint64 a -> is_uint64 b -> b <= a -> sub64 a b = a - b.
Proof.
  unfold sub64. intros Ha Hb Hle. apply wrap64_small.
  unfold is_uint64 in *. lia.
Qed.

Lemma add64_wrap_l (a b : Z) : add64 (wrap64 a) b = wrap64 (a + b).
Proof.
  unfold add64, wrap64. rewrite Z.add_mod_idemp_l; [reflexivity|].
  pose proof UINT64_MOD_pos. lia.
Qed.

Lemma accumulate_wf (m : NetworkMetrics) (d : if_data64) :
  wf_metrics (accumulate m d).
Proof. unfold wf_metrics, accumulate, add64; simpl. repeat split; apply wrap64_range. Qed.

Lemma zero_metrics_wf : wf_metrics zero_metrics.
Proof. unfold wf_metrics, is_uint64; simpl. repeat split; try reflexivity; discriminate. Qed.

(** ** Loads *)

Lemma byte_at_app_r (pre b : list byte) (off : nat) :
  byte_at (pre ++ b) (length pre + off) = byte_at b off.
Proof.
  unfold byte_at. f_equal.
  rewrite nth_error_app2 by lia. f_equal. lia.
Qed.

Lemma byte_at_app_l (b post : list byte) (off : nat) (v : Z) :
  byte_at b off = Some v -> byte_at (b ++ post) off = Some v.
Proof.
  unfold byte_at. destruct (nth_error b off) as [x|] eqn:E; [|discriminate].
  intros H. rewrite nth_error_app1; [now rewrite E|].
  apply nth_error_Some. congruence.
Qed.

Lemma byte_at_length (b : list byte) (off : nat) (v : Z) :
  byte_at b off = Some v -> (off < length b)%nat.
Proof.
  unfold byte_at. destruct (nth_error b off) eqn:E; [|discriminate].
  intros _. apply nth_error_Some. congruence.
Qed.

Lemma load_le_app_r (pre b : list byte) (width off : nat) :
  load_le (pre ++ b) (length pre + off) width = load_le b off width.
Proof.
  revert off. induction width as [|w IH]; intros off; simpl; [reflexivity|].
  rewrite byte_at_app_r.
  replace (S (length pre + off)) with (length pre + S off)%nat by lia.
  now rewrite IH.
Qed.

Lemma load_le_app_l (b post : list byte) (width off : nat) (v : Z) :
  load_le b off width = Some v -> load_le (b ++ post) off width = Some v.
Proof.
  revert off v. induction width as [|w IH]; intros off v; simpl; [trivial|].
  destruct (byte_at b off) as [lo|] eqn:E; [|discriminate].
  destruct (load_le b (S off) w) as [hi|] eqn:E'; [|discriminate].
  intros H. rewrite (byte_at_app_l _ _ _ _ E), (IH _ _ E'). exact H.
Qed.

Lemma load_le_inside (pre r post : list byte) (width off : nat) (v : Z) :
  load_le r off width = Some v ->
  load_le (pre ++ r ++ post) (length pre + off) width = Some v.
Proof.
  intros H. rewrite load_le_app_r. now apply load_le_app_l.
Qed.

Lemma load_le_length (b : list byte) (width off : nat) (v : Z) :
  load_le b off (S width) = Some v -> (off < length b)%nat.
Proof.
  simpl. destruct (byte_at b off) eqn:E; [|discriminate].
  intros _. eapply byte_at_length; eauto.
Qed.

Lemma byte_at_nonneg (b : list byte) (off : nat) (v : Z) :
  byte_at b off = Some v -> 0 <= v.
Proof.
  unfold byte_at. destruct (nth_error b off); [|discriminate].
  simpl. intros [= <-]. apply N2Z.is_nonneg.
Qed.

Lemma load_le_nonneg (b : list byte) (width off : nat) (v : Z) :
  load_le b off width = Some v -> 0 <= v.
Proof.
  revert off v. induction width as [|n IH]; intros off v; cbn [load_le].
  - intros [= <-]. lia.
  - destruct (byte_at b off) as [lo|] eqn:E; [|discriminate].
    destruct (load_le b (S off) n) as [hi|] eqn:E'; [|discriminate].
    intros [= <-]. apply byte_at_nonneg in E. apply IH in E'. destruct hi; lia.
Qed.

Arguments load_le : simpl never.

Section Properties.

Variable World : Type.
Variable os : OS World.
Variable L : Layout.

(** ** The monad *)

Lemma bind_assoc {A B C : Type} (m : M World A) (f : A -> M World B)
    (g : B -> M World C) (w : World) :
  bind (bind m f) g w = bind m (fun a => bind (f a) g) w.
Proof.
  unfold bind. destruct (m w) as [[[a|s| |] w1] t1]; try reflexivity.
  destruct (f a w1) as [[[b|s| |] w2] t2]; try reflexivity.
  destruct (g b w2) as [[o w3] t3]. now rewrite app_assoc.
Qed.

Lemma bind_ret_l {A B : Type} (a : A) (f : A -> M World B) (w : World) :
  bind (ret a) f w = f a w.
Proof. unfold bind, ret. now destruct (f a w) as [[o w'] t]. Qed.

Lemma bind_ext {A B : Type} (m : M World A) (f g : A -> M World B) (w : World) :
  (forall a w', f a w' = g a w') -> bind m f w = bind m g w.
Proof.
  intros H. unfold bind. destruct (m w) as [[[a|s| |] w1] t1]; try reflexivity.
  now rewrite H.
Qed.

Lemma bind_congr_l {A B : Type} (m m' : M World A) (f : A -> M World B) (w : World) :
  m w = m' w -> bind m f w = bind m' f w.
Proof. unfold bind. now intros ->. Qed.

Lemma load_some (buffer : list byte) (off width : nat) (v : Z) (w : World) :
  load_le buffer off width = Some v -> load buffer off width w = (Done v, w, []).
Proof. unfold load. now intros ->. Qed.

(** ** Well-formed records *)

Lemma well_formed_inv (r : list byte) :
  well_formed L r = true ->
  exists len rec,
    ifm_msglen L r 0 = Some len /\ parse_record L r = Some rec /\
    Z.to_nat len = length r /\ (0 < length r)%nat.
Proof.
  unfold well_formed.
  destruct (ifm_msglen L r 0) as [len|] eqn:El; [|discriminate].
  destruct (parse_record L r) as [rec|] eqn:Ep; [|discriminate].
  intros H. apply Nat.eqb_eq in H. exists len, rec. repeat split; trivial.
  unfold parse_record in Ep.
  destruct (ifm_type L r 0) as [t|] eqn:Et; [|discriminate].
  unfold ifm_type in Et. apply load_le_length in Et. lia.
Qed.

(** The loop body on a record whose fields lie inside it is the
    specification's selector followed by the accumulation; the cursor moves
    by the declared length, whatever it is. *)
Lemma scan_body_parsed (useIfmibData : bool) (pre r post : list byte)
    (rec : InterfaceRecord) (len : Z) (metrics : NetworkMetrics) (w : World) :
  parse_record L r = Some rec ->
  ifm_msglen L r 0 = Some len ->
  scan_body os L useIfmibData (pre ++ r ++ post) (length pre) metrics w =
  (c <- select_counters os useIfmibData rec ;;
   ret ((length pre + Z.to_nat len)%nat,
        match c with Some d => accumulate metrics d | None => metrics end)) w.
Proof.
  intros Ep El. unfold parse_record in Ep.
  destruct (ifm_type L r 0) as [t|] eqn:Et; [|discriminate].
  unfold ifm_type, ifm_msglen in *. simpl in Et, El.
  pose proof (load_le_inside pre r post _ _ _ Et) as Ht.
  pose proof (load_le_inside pre r post _ _ _ El) as Hl.
  unfold scan_body.
  unfold bind at 1. rewrite (load_some _ _ _ _ w Ht).
  destruct (t =? RTM_IFINFO2 L) eqn:Etag.
  - destruct (ifm_index L r 0) as [i|] eqn:Ei; [|discriminate].
    destruct (ifm_data L r 0) as [d|] eqn:Ed; [|discriminate].
    injection Ep as <-.
    unfold ifm_index in Ei. simpl in Ei.
    pose proof (load_le_inside pre r post _ _ _ Ei) as Hi.
    unfold ifm_data in Ed. simpl in Ed.
    destruct (load_le r (ifi_ipackets_off L) 8) as [ip|] eqn:E1; [|discriminate].
    destruct (load_le r (ifi_opackets_off L) 8) as [op|] eqn:E2; [|discriminate].
    destruct (load_le r (ifi_ibytes_off L) 8) as [ib|] eqn:E3; [|discriminate].
    destruct (load_le r (ifi_obytes_off L) 8) as [ob|] eqn:E4; [|discriminate].
    injection Ed as <-.
    pose proof (load_le_inside pre r post _ _ _ E1) as H1.
    pose proof (load_le_inside pre r post _ _ _ E2) as H2.
    pose proof (load_le_inside pre r post _ _ _ E3) as H3.
    pose proof (load_le_inside pre r post _ _ _ E4) as H4.
    destruct useIfmibData; simpl select_counters.
    + unfold bind. rewrite (load_some _ _ _ _ w Hi).
      unfold call_sysctl_ifdata.
      destruct (sysctl_ifdata os i w) as [[errno|mibdata] w1]; simpl.
      * reflexivity.
      * rewrite (load_some _ _ _ _ w1 Hl). reflexivity.
    + unfold bind. rewrite (load_some _ _ _ _ w H1), (load_some _ _ _ _ w H2),
        (load_some _ _ _ _ w H3), (load_some _ _ _ _ w H4). simpl.
      rewrite (load_some _ _ _ _ w Hl). reflexivity.
  - injection Ep as <-. simpl select_counters.
    unfold bind. simpl. rewrite (load_some _ _ _ _ w Hl). reflexivity.
Qed.

Lemma scan_body_well_formed (useIfmibData : bool) (pre r post : list byte)
    (metrics : NetworkMetrics) (w : World) :
  well_formed L r = true ->
  scan_body os L useIfmibData (pre ++ r ++ post) (length pre) metrics w =
  (c <- select_counters os useIfmibData (classify L r) ;;
   ret ((length pre + length r)%nat,
        match c with Some d => accumulate metrics d | None => metrics end)) w.
Proof.
  intros Hwf. destruct (well_formed_inv r Hwf) as (len & rec & El & Ep & Hlen & _).
  unfold classify. rewrite Ep, <- Hlen. now apply scan_body_parsed.
Qed.

(** The cursor loop over a concatenation of well-formed records is the
    specification's aggregation over the classified records, in order, and
    it stops with the cursor at the end of the buffer. *)
Lemma scan_loop_concat (useIfmibData : bool) (rs : list (list byte)) :
  Forall (fun r => well_formed L r = true) rs ->
  forall (fuel : nat) (pre : list byte) (metrics : NetworkMetrics) (w : World),
    (length rs <= fuel)%nat ->
    scan_loop os L fuel useIfmibData (pre ++ concat rs) (length pre) metrics w =
    (m <- aggregate_records os useIfmibData (map (classify L) rs) metrics ;;
     ret (length (pre ++ concat rs), m)) w.
Proof.
  induction 1 as [|r rs Hr Hrs IH]; intros fuel pre metrics w Hfuel.
  - simpl. rewrite app_nil_r.
    destruct fuel; simpl; rewrite Nat.ltb_irrefl; reflexivity.
  - destruct (well_formed_inv r Hr) as (len & rec & _ & _ & _ & Hpos).
    destruct fuel as [|fuel]; [simpl in Hfuel; lia|].
    simpl concat. simpl scan_loop.
    assert (Hlt : (length pre <? length (pre ++ r ++ concat rs))%nat = true).
    { apply Nat.ltb_lt. rewrite !length_app. lia. }
    rewrite Hlt.
    rewrite (bind_congr_l _ _ _ w (scan_body_well_formed _ _ _ _ _ _ Hr)).
    simpl map. simpl aggregate_records.
    rewrite !bind_assoc. apply bind_ext. intros c w1.
    rewrite bind_ret_l. simpl fst. simpl snd.
    replace (length pre + length r)%nat with (length (pre ++ r))
      by now rewrite length_app.
    replace (pre ++ r ++ concat rs) with ((pre ++ r) ++ concat rs)
      by now rewrite app_assoc.
    apply IH. simpl in Hfuel. lia.
Qed.

(** ** The shape of a pass *)

Lemma tidy_bind {A B : Type} (m : M World A) (f : A -> M World B) (w : World) :
  tidy (m w) -> (forall a w', tidy (f a w')) -> tidy (bind m f w).
Proof.
  unfold bind. intros Hm Hf.
  destruct (m w) as [[[a|s| |] w1] t1]; try exact Hm.
  specialize (Hf a w1). destruct (f a w1) as [[o w2] t2].
  unfold tidy, outcome_of, log_of in *. simpl in *.
  destruct o as [b|s| |]; try (rewrite forallb_app, Hm, Hf; reflexivity).
  destruct Hf as (Hs & t & name & errno & Ht & Hok). split; [exact Hs|].
  exists (t1 ++ t), name, errno. split.
  - now rewrite Ht, app_assoc.
  - now rewrite forallb_app, Hm, Hok.
Qed.

Lemma tidy_ret {A : Type} (a : A) (w : World) : tidy (ret a w).
Proof. reflexivity. Qed.

Lemma tidy_load (buffer : list byte) (off width : nat) (w : World) :
  tidy (load buffer off width w).
Proof. unfold load. now destruct (load_le buffer off width). Qed.

(** A sysctl call followed by the check of its result (lines 50-53, 56-59
    and 84-87). *)
Lemma tidy_checked {R B : Type} (call : M World (Z + R)) (name : sysctl_name)
    (k : R -> M World B) (w : World) :
  (forall w0, exists r w', call w0 = (Done r, w', [EvSysctl name (negb (is_left r))])) ->
  (forall x w', tidy (k x w')) ->
  tidy ((r <- call ;;
         match r with
         | inl errno => fprintf_stderr World "sysctl: %s\n" errno ;; exit World 1
         | inr x => k x
         end) w).
Proof.
  intros Hcall Hk. destruct (Hcall w) as (r & w' & E).
  unfold bind at 1. rewrite E. destruct r as [errno|x]; simpl.
  - unfold tidy, outcome_of, log_of; simpl. split; [reflexivity|].
    exists [], name, errno. split; reflexivity.
  - specialize (Hk x w'). destruct (k x w') as [[o w2] t2].
    unfold tidy, outcome_of, log_of in *; simpl in *.
    destruct o as [b|s| |]; trivial.
    destruct Hk as (Hs & t & name' & errno & Ht & Hok). split; [exact Hs|].
    exists (EvSysctl name true :: t), name', errno. split.
    + now rewrite Ht.
    + simpl. exact Hok.
Qed.

Lemma tidy_scan_body (useIfmibData : bool) (buffer : list byte) (next : nat)
    (metrics : NetworkMetrics) (w : World) :
  tidy (scan_body os L useIfmibData buffer next metrics w).
Proof.
  unfold scan_body. apply tidy_bind; [apply tidy_load|]. intros type w1.
  apply tidy_bind.
  - destruct (type =? RTM_IFINFO2 L); [|apply tidy_ret].
    destruct useIfmibData.
    + apply tidy_bind; [apply tidy_load|]. intros index w2.
      apply (tidy_checked (call_sysctl_ifdata os index) (IFMIB_IFDATA index)).
      * intros w0. unfold call_sysctl_ifdata.
        destruct (sysctl_ifdata os index w0) as [r w']. now exists r, w'.
      * intros x w'. apply tidy_ret.
    + repeat (apply tidy_bind; [apply tidy_load|]; intros ? ?). apply tidy_ret.
  - intros m w2. apply tidy_bind; [apply tidy_load|]. intros. apply tidy_ret.
Qed.

Lemma tidy_scan_loop (useIfmibData : bool) (buffer : list byte) (fuel : nat) :
  forall (next : nat) (metrics : NetworkMetrics) (w : World),
    tidy (scan_loop os L fuel useIfmibData buffer next metrics w).
Proof.
  induction fuel as [|fuel IH]; intros next metrics w; simpl;
    destruct (next <? length buffer)%nat; try apply tidy_ret.
  - reflexivity.
  - apply tidy_bind; [apply tidy_scan_body|]. intros st w'. apply IH.
Qed.

Lemma tidy_GetNetworkMetrics (fuel : nat) (useIfmibData : bool) (w : World) :
  tidy (GetNetworkMetrics os L fuel useIfmibData w).
Proof.
  unfold GetNetworkMetrics.
  apply (tidy_checked (call_sysctl_size World os) NET_RT_IFLIST2).
  - intros w0. unfold call_sysctl_size.
    destruct (sysctl_size os w0) as [r w']. now exists r, w'.
  - intros len w1.
    apply (tidy_checked (call_sysctl_iflist World os len) NET_RT_IFLIST2).
    + intros w0. unfold call_sysctl_iflist.
      destruct (sysctl_iflist os len w0) as [r w']. now exists r, w'.
    + intros buffer w2. apply tidy_bind; [apply tidy_scan_loop|].
      intros st w3. apply tidy_ret.
Qed.

Lemma ok_sysctl_not_reported (t t' : list event) :
  forallb is_ok_sysctl t = true -> reported (t ++ t') = reported t'.
Proof.
  induction t as [|e t IH]; simpl; [trivial|].
  intros H. apply andb_prop in H as [He Ht].
  destruct e as [name ok| | |]; try discriminate. now apply IH.
Qed.

Lemma ok_sysctl_not_stdout (t : list event) :
  forallb is_ok_sysctl t = true -> stdout_of t = [].
Proof.
  induction t as [|e t IH]; simpl; [trivial|].
  intros H. apply andb_prop in H as [He Ht].
  destruct e as [name ok| | |]; try discriminate. now apply IH.
Qed.

Lemma ok_sysctl_not_failed (t : list event) (name : sysctl_name) :
  forallb is_ok_sysctl t = true -> ~ In (EvSysctl name false) t.
Proof.
  intros H Hin. rewrite forallb_forall in H. specialize (H _ Hin). discriminate.
Qed.

(** ** The report *)

Lemma report_run (lastMetrics currentMetrics : NetworkMetrics) (w : World) :
  report lastMetrics currentMetrics w =
  (Done tt, w,
   [EvStdout "--- PACKETS ---\n" [];
    EvStdout "  Input (Download): %llu (total), %llu (delta)\n"
      [totalInputPackets currentMetrics;
       sub64 (totalInputPackets currentMetrics) (totalInputPackets lastMetrics)];
    EvStdout "  Output (Upload): %llu (total), %llu (delta)\n"
      [totalOutputPackets currentMetrics;
       sub64 (totalOutputPackets currentMetrics) (totalOutputPackets lastMetrics)];
    EvStdout "--- BYTES ---\n" [];
    EvStdout "  Input (Download): %llu (total), %llu (delta)\n"
      [totalInputBytes currentMetrics;
       sub64 (totalInputBytes currentMetrics) (totalInputBytes lastMetrics)];
    EvStdout "  Output (Upload): %llu (total), %llu (delta)\n"
      [totalOutputBytes currentMetrics;
       sub64 (totalOutputBytes currentMetrics) (totalOutputBytes lastMetrics)]]
   ++ (if totalInputBytes currentMetrics <? totalInputBytes lastMetrics then
         [EvStdout "!! INPUT OVERFLOW !!\n" [];
          EvStdout "Before: %llu, After: %llu, Difference: %llu\n"
            [totalInputBytes lastMetrics; totalInputBytes currentMetrics;
             sub64 (totalInputBytes lastMetrics) (totalInputBytes currentMetrics)]]
       else [])
   ++ (if totalOutputBytes currentMetrics <? totalOutputBytes lastMetrics then
         [EvStdout "!! OUTPUT OVERFLOW !!\n" [];
          EvStdout "Before: %llu, After: %llu, Difference: %llu\n"
            [totalOutputBytes lastMetrics; totalOutputBytes currentMetrics;
             sub64 (totalOutputBytes lastMetrics) (totalOutputBytes currentMetrics)]]
       else [])
   ++ [EvStdout "\n\n" []]).
Proof.
  unfold report, bind, printf, emit, ret.
  destruct (totalInputBytes currentMetrics <? totalInputBytes lastMetrics);
    destruct (totalOutputBytes currentMetrics <? totalOutputBytes lastMetrics);
    reflexivity.
Qed.

Lemma reported_report (lastMetrics currentMetrics : NetworkMetrics) (w : World) :
  reported (log_of (report lastMetrics currentMetrics w)) =
  [(totalInputPackets currentMetrics,
    sub64 (totalInputPackets currentMetrics) (totalInputPackets lastMetrics));
   (totalOutputPackets currentMetrics,
    sub64 (totalOutputPackets currentMetrics) (totalOutputPackets lastMetrics));
   (totalInputBytes currentMetrics,
    sub64 (totalInputBytes currentMetrics) (totalInputBytes lastMetrics));
   (totalOutputBytes currentMetrics,
    sub64 (totalOutputBytes currentMetrics) (totalOutputBytes lastMetrics))].
Proof.
  rewrite report_run. unfold log_of. simpl snd.
  destruct (totalInputBytes currentMetrics <? totalInputBytes lastMetrics);
    destruct (totalOutputBytes currentMetrics <? totalOutputBytes lastMetrics);
    reflexivity.
Qed.

(** An iteration whose pass succeeds: the sleep, the pass, the report, and
    the current sample as the value handed to the next iteration. *)
Lemma loop_iteration_done (fuel : nat) (useIfmibData : bool)
    (lastMetrics currentMetrics : NetworkMetrics) (w w1 : World) (t : list event) :
  GetNetworkMetrics os L fuel useIfmibData w = (Done currentMetrics, w1, t) ->
  loop_iteration os L fuel useIfmibData lastMetrics w =
  (Done currentMetrics, w1,
   EvSleep 1 :: t ++ log_of (report lastMetrics currentMetrics w1)).
Proof.
  intros H. unfold loop_iteration, bind, sleep, emit. rewrite H.
  rewrite report_run. unfold log_of, ret. simpl. now rewrite app_nil_r.
Qed.

(** ** The sample loop: deltas, warnings, fatal failures *)

(** C2: each of the four reported deltas is [current.field - previous.field]
    modulo 2^64; a step from 10 to 15 reports 5, and a step from 2^64-5 to 3
    reports the wrapped delta 8. *)
Theorem deltas_are_wrapping_differences
    (lastMetrics currentMetrics : NetworkMetrics) (w : World) :
  map snd (reported (log_of (report lastMetrics currentMetrics w))) =
  [(totalInputPackets currentMetrics - totalInputPackets lastMetrics) mod 2 ^ 64;
   (totalOutputPackets currentMetrics - totalOutputPackets lastMetrics) mod 2 ^ 64;
   (totalInputBytes currentMetrics - totalInputBytes lastMetrics) mod 2 ^ 64;
   (totalOutputBytes currentMetrics - totalOutputBytes lastMetrics) mod 2 ^ 64]
  /\ map snd (reported (log_of (report (mkNetworkMetrics 10 10 10 10)
                                       (mkNetworkMetrics 15 15 15 15) w))) =
     [5; 5; 5; 5]
  /\ map snd (reported (log_of (report
       (mkNetworkMetrics (2 ^ 64 - 5) (2 ^ 64 - 5) (2 ^ 64 - 5) (2 ^ 64 - 5))
       (mkNetworkMetrics 3 3 3 3) w))) =
     [8; 8; 8; 8].
Proof.
  repeat split; rewrite reported_report; reflexivity.
Qed.

(** C3: the input (output) overflow banner is printed exactly when the
    current total of input (output) bytes is below the previous one as
    integers; each direction is checked on its own; the line after the
    banner names the value before, the value after and their difference
    [previous - current]; the report then ends normally and the iteration
    hands the current sample to the next one: what is left of the loop runs
    with the current sample as its previous sample. *)
Theorem overflow_warning_iff_counter_decreased
    (lastMetrics currentMetrics : NetworkMetrics) (w : World) :
  wf_metrics lastMetrics ->
  wf_metrics currentMetrics ->
  (In (EvStdout "!! INPUT OVERFLOW !!\n" [])
      (log_of (report lastMetrics currentMetrics w)) <->
   totalInputBytes currentMetrics < totalInputBytes lastMetrics)
  /\ (In (EvStdout "!! OUTPUT OVERFLOW !!\n" [])
         (log_of (report lastMetrics currentMetrics w)) <->
      totalOutputBytes currentMetrics < totalOutputBytes lastMetrics)
  /\ skipn 6 (log_of (report lastMetrics currentMetrics w)) =
     overflow_warning "!! INPUT OVERFLOW !!\n"
       (totalInputBytes lastMetrics) (totalInputBytes currentMetrics)
     ++ overflow_warning "!! OUTPUT OVERFLOW !!\n"
          (totalOutputBytes lastMetrics) (totalOutputBytes currentMetrics)
     ++ [EvStdout "\n\n" []]
  /\ outcome_of (report lastMetrics currentMetrics w) = Done tt
  /\ (forall fuel useIfmibData w0 t,
        GetNetworkMetrics os L fuel useIfmibData w0 = (Done currentMetrics, w, t) ->
        loop_iteration os L fuel useIfmibData lastMetrics w0 =
        (Done currentMetrics, w,
         EvSleep 1 :: t ++ log_of (report lastMetrics currentMetrics w)))
  /\ (forall fuel useIfmibData w0 t n,
        GetNetworkMetrics os L fuel useIfmibData w0 = (Done currentMetrics, w, t) ->
        main_loop os L (S n) fuel useIfmibData lastMetrics w0 =
        match main_loop os L n fuel useIfmibData currentMetrics w with
        | (o, w', t') =>
            (o, w',
             (EvSleep 1 :: t ++ log_of (report lastMetrics currentMetrics w)) ++ t')
        end).
Proof.
  intros (Hli & Hlo & _ & _) (Hci & Hco & _ & _).
  assert (Hnext : forall fuel useIfmibData w0 t n,
             GetNetworkMetrics os L fuel useIfmibData w0 = (Done currentMetrics, w, t) ->
             main_loop os L (S n) fuel useIfmibData lastMetrics w0 =
             match main_loop os L n fuel useIfmibData currentMetrics w with
             | (o, w', t') =>
                 (o, w',
                  (EvSleep 1 :: t ++ log_of (report lastMetrics currentMetrics w))
                  ++ t')
             end).
  { intros fuel useIfmibData w0 t n H. simpl main_loop. unfold bind at 1.
    rewrite (loop_iteration_done _ _ lastMetrics _ _ _ _ H). reflexivity. }
  rewrite report_run in *.
  unfold log_of, outcome_of, overflow_warning in *. simpl fst. simpl snd.
  split; [|split; [|split; [|split; [|split; [|exact Hnext]]]]]; clear Hnext.
  - destruct (Z.ltb_spec (totalInputBytes currentMetrics) (totalInputBytes lastMetrics)) as [Hlt|Hge];
      destruct (totalOutputBytes currentMetrics <? totalOutputBytes lastMetrics);
      simpl; split; intros H; try lia; try (now auto 10);
      repeat (destruct H as [H|H]; try discriminate H); try contradiction.
  - destruct (Z.ltb_spec (totalOutputBytes currentMetrics) (totalOutputBytes lastMetrics)) as [Hlt|Hge];
      destruct (totalInputBytes currentMetrics <? totalInputBytes lastMetrics);
      simpl; split; intros H; try lia; try (now auto 10);
      repeat (destruct H as [H|H]; try discriminate H); try contradiction.
  - simpl skipn.
    destruct (Z.ltb_spec (totalInputBytes currentMetrics) (totalInputBytes lastMetrics));
      destruct (Z.ltb_spec (totalOutputBytes currentMetrics) (totalOutputBytes lastMetrics));
      rewrite ?sub64_no_wrap by (trivial; lia); reflexivity.
  - reflexivity.
  - intros fuel useIfmibData w0 t H.
    rewrite (loop_iteration_done _ _ lastMetrics _ _ _ _ H).
    now rewrite report_run.
Qed.

(** C6: the byte totals and byte deltas an iteration prints are the values
    the pass returned and their wrapping differences, unrounded. *)
Theorem byte_counters_reported_unrounded (fuel : nat) (useIfmibData : bool)
    (lastMetrics currentMetrics : NetworkMetrics) (w w1 : World) (t : list event) :
  GetNetworkMetrics os L fuel useIfmibData w = (Done currentMetrics, w1, t) ->
  skipn 2 (reported (log_of (loop_iteration os L fuel useIfmibData lastMetrics w))) =
  [(totalInputBytes currentMetrics,
    sub64 (totalInputBytes currentMetrics) (totalInputBytes lastMetrics));
   (totalOutputBytes currentMetrics,
    sub64 (totalOutputBytes currentMetrics) (totalOutputBytes lastMetrics))].
Proof.
  intros H. rewrite (loop_iteration_done _ _ lastMetrics _ _ _ _ H).
  pose proof (tidy_GetNetworkMetrics fuel useIfmibData w) as Ht.
  rewrite H in Ht. unfold tidy, outcome_of, log_of in Ht. simpl in Ht.
  unfold log_of at 1. simpl snd. simpl reported.
  rewrite (ok_sysctl_not_reported _ _ Ht), reported_report. reflexivity.
Qed.

(** C7: when every field of the current sample is at least the previous
    one and exceeds it by less than 2^63, neither banner is printed and the
    four deltas are the plain differences. *)
Theorem ordinary_growth_is_silent
    (lastMetrics currentMetrics : NetworkMetrics) (w : World) :
  wf_metrics lastMetrics ->
  wf_metrics currentMetrics ->
  ordinary_growth lastMetrics currentMetrics ->
  ~ In (EvStdout "!! INPUT OVERFLOW !!\n" [])
       (log_of (report lastMetrics currentMetrics w))
  /\ ~ In (EvStdout "!! OUTPUT OVERFLOW !!\n" [])
          (log_of (report lastMetrics currentMetrics w))
  /\ skipn 6 (log_of (report lastMetrics currentMetrics w)) = [EvStdout "\n\n" []]
  /\ map snd (reported (log_of (report lastMetrics currentMetrics w))) =
     [totalInputPackets currentMetrics - totalInputPackets lastMetrics;
      totalOutputPackets currentMetrics - totalOutputPackets lastMetrics;
      totalInputBytes currentMetrics - totalInputBytes lastMetrics;
      totalOutputBytes currentMetrics - totalOutputBytes lastMetrics].
Proof.
  intros (Hli & Hlo & Hlp & Hlq) (Hci & Hco & Hcp & Hcq)
         ((Gi & _) & (Go & _) & (Gp & _) & (Gq & _)).
  split; [|split; [|split]].
  - rewrite report_run. unfold log_of. simpl snd.
    destruct (Z.ltb_spec (totalInputBytes currentMetrics) (totalInputBytes lastMetrics)) as [Hlt|Hge]; [lia|].
    destruct (totalOutputBytes currentMetrics <? totalOutputBytes lastMetrics);
      simpl; intros Hin; repeat (destruct Hin as [Hin|Hin]; try discriminate Hin); contradiction.
  - rewrite report_run. unfold log_of. simpl snd.
    destruct (Z.ltb_spec (totalOutputBytes currentMetrics) (totalOutputBytes lastMetrics)) as [Hlt'|Hge']; [lia|].
    destruct (totalInputBytes currentMetrics <? totalInputBytes lastMetrics);
      simpl; intros Hin; repeat (destruct Hin as [Hin|Hin]; try discriminate Hin); contradiction.
  - rewrite report_run. unfold log_of. simpl snd.
    destruct (Z.ltb_spec (totalInputBytes currentMetrics) (totalInputBytes lastMetrics)) as [Hlt|Hge]; [lia|].
    destruct (Z.ltb_spec (totalOutputBytes currentMetrics) (totalOutputBytes lastMetrics)) as [Hlt'|Hge']; [lia|].
    reflexivity.
  - rewrite reported_report. simpl map.
    rewrite !sub64_no_wrap by trivial. reflexivity.
Qed.

(** C5: when a sysctl call of a pass fails, be it the primary fetch or a
    secondary query, the pass ends in [exit(1)] right after the diagnostic
    on stderr; the iteration around it prints no report and yields no new
    previous sample, and the loop stops there. *)
Theorem failed_query_is_fatal (fuel : nat) (useIfmibData : bool)
    (lastMetrics : NetworkMetrics) (w : World) (name : sysctl_name) :
  In (EvSysctl name false) (log_of (GetNetworkMetrics os L fuel useIfmibData w)) ->
  outcome_of (GetNetworkMetrics os L fuel useIfmibData w) = Exited 1
  /\ (exists t errno,
        log_of (GetNetworkMetrics os L fuel useIfmibData w) =
        t ++ [EvSysctl name false; EvStderr "sysctl: %s\n" errno])
  /\ loop_iteration os L fuel useIfmibData lastMetrics w =
     (Exited 1, world_of (GetNetworkMetrics os L fuel useIfmibData w),
      EvSleep 1 :: log_of (GetNetworkMetrics os L fuel useIfmibData w))
  /\ stdout_of (log_of (loop_iteration os L fuel useIfmibData lastMetrics w)) = []
  /\ (forall n,
        main_loop os L (S n) fuel useIfmibData lastMetrics w =
        loop_iteration os L fuel useIfmibData lastMetrics w).
Proof.
  intros Hin.
  pose proof (tidy_GetNetworkMetrics fuel useIfmibData w) as Ht.
  assert (Hit : forall o w1 t,
             GetNetworkMetrics os L fuel useIfmibData w = (Exited o, w1, t) ->
             loop_iteration os L fuel useIfmibData lastMetrics w =
             (Exited o, w1, EvSleep 1 :: t)).
  { intros o w1 t E. unfold loop_iteration, bind, sleep, emit. now rewrite E. }
  destruct (GetNetworkMetrics os L fuel useIfmibData w) as [[o w1] t] eqn:E.
  unfold tidy, outcome_of, log_of, world_of in *. simpl in Ht, Hin. simpl.
  assert (Hex : exists s, o = Exited s).
  { destruct o as [m|s| |]; try (now exfalso; apply (ok_sysctl_not_failed _ _ Ht Hin)).
    now exists s. }
  destruct Hex as [s ->]. destruct Ht as (-> & t0 & name' & errno & -> & Hok).
  apply in_app_or in Hin as [Hin|Hin];
    [now exfalso; apply (ok_sysctl_not_failed _ _ Hok Hin)|].
  destruct Hin as [Hin|[Hin|[]]]; [|discriminate]. injection Hin as ->.
  specialize (Hit _ _ _ eq_refl).
  split; [reflexivity|]. split; [now exists t0, errno|].
  split; [exact Hit|]. split.
  - rewrite Hit. simpl. unfold stdout_of. rewrite filter_app.
    fold (stdout_of t0). rewrite (ok_sysctl_not_stdout _ Hok). reflexivity.
  - intros n. simpl main_loop. unfold bind at 1. now rewrite Hit.
Qed.

(** ** The cursor loop on arbitrary buffers *)

Lemma outcome_bind_done {A B : Type} (m : M World A) (f : A -> M World B)
    (w w1 : World) (a : A) (t1 : list event) :
  m w = (Done a, w1, t1) -> outcome_of (bind m f w) = outcome_of (f a w1).
Proof.
  intros E. unfold bind. rewrite E. now destruct (f a w1) as [[o w2] t2].
Qed.

Lemma bind_not_done {A B : Type} (m : M World A) (f : A -> M World B) (w : World) :
  (forall a w1 t1, m w = (Done a, w1, t1) -> forall b, outcome_of (f a w1) <> Done b) ->
  forall b, outcome_of (bind m f w) <> Done b.
Proof.
  intros H b. unfold bind.
  destruct (m w) as [[[a|s| |] w1] t1] eqn:E; try discriminate.
  specialize (H a w1 t1 eq_refl b).
  destruct (f a w1) as [[o w2] t2]. exact H.
Qed.

Lemma bind_done_inv {A B : Type} (m : M World A) (f : A -> M World B)
    (w w2 : World) (b : B) (t : list event) :
  bind m f w = (Done b, w2, t) ->
  exists a w1 t1 t2,
    m w = (Done a, w1, t1) /\ f a w1 = (Done b, w2, t2) /\ t = t1 ++ t2.
Proof.
  unfold bind. destruct (m w) as [[[a|s| |] w1] t1]; try discriminate.
  destruct (f a w1) as [[o w3] t2] eqn:E. intros [= -> -> <-].
  now exists a, w1, t1, t2.
Qed.

Lemma load_done_inv (buffer : list byte) (off width : nat) (w w' : World)
    (v : Z) (t : list event) :
  load buffer off width w = (Done v, w', t) -> load_le buffer off width = Some v.
Proof.
  unfold load. destruct (load_le buffer off width); [|discriminate].
  now intros [= ->].
Qed.

(** When the loop body completes, the cursor has moved by the declared
    length of the record under it. *)
Lemma scan_body_done (useIfmibData : bool) (buffer : list byte) (next : nat)
    (metrics : NetworkMetrics) (w w' : World) (st : nat * NetworkMetrics)
    (t : list event) :
  scan_body os L useIfmibData buffer next metrics w = (Done st, w', t) ->
  exists len,
    ifm_msglen L buffer next = Some len /\ 0 <= len /\
    fst st = (next + Z.to_nat len)%nat.
Proof.
  unfold scan_body. intros H.
  apply bind_done_inv in H as (type & w1 & t1 & t2 & _ & H & _).
  apply bind_done_inv in H as (m' & w2 & t3 & t4 & _ & H & _).
  apply bind_done_inv in H as (len & w3 & t5 & t6 & Hl & H & _).
  apply load_done_inv in Hl. injection H as <- _ _.
  exists len. repeat split; trivial. eapply load_le_nonneg; eauto.
Qed.

Lemma halts_bind {A B : Type} (m : M World A) (f : A -> M World B) (w : World) :
  halts (m w) -> (forall a w', halts (f a w')) -> halts (bind m f w).
Proof.
  unfold halts, bind. intros Hm Hf.
  destruct (m w) as [[[a|s| |] w1] t1]; try discriminate.
  - specialize (Hf a w1). now destruct (f a w1) as [[o w2] t2].
  - now elim Hm.
Qed.

Lemma halts_load (buffer : list byte) (off width : nat) (w : World) :
  halts (load buffer off width w).
Proof. unfold halts, load. now destruct (load_le buffer off width). Qed.

Lemma halts_scan_body (useIfmibData : bool) (buffer : list byte) (next : nat)
    (metrics : NetworkMetrics) (w : World) :
  halts (scan_body os L useIfmibData buffer next metrics w).
Proof.
  unfold scan_body. apply halts_bind; [apply halts_load|]. intros type w1.
  apply halts_bind.
  - destruct (type =? RTM_IFINFO2 L); [|discriminate].
    destruct useIfmibData.
    + apply halts_bind; [apply halts_load|]. intros index w2.
      apply halts_bind.
      * unfold halts, call_sysctl_ifdata.
        now destruct (sysctl_ifdata os index w2).
      * intros [errno|mibdata] w3; discriminate.
    + repeat (apply halts_bind; [apply halts_load|]; intros ? ?). discriminate.
  - intros m w2. apply halts_bind; [apply halts_load|]. discriminate.
Qed.

Lemma reachable_trans (buffer : list byte) (a b c : nat) :
  reachable L buffer a b -> reachable L buffer b c -> reachable L buffer a c.
Proof.
  intros Hab Hbc. induction Hbc as [|n len Hbn IH Hlt Hlen]; [exact Hab|].
  now apply reachable_step.
Qed.

Lemma reachable_head (buffer : list byte) (c z : nat) :
  reachable L buffer c z ->
  c = z \/
  exists len,
    (c < length buffer)%nat /\ ifm_msglen L buffer c = Some len /\
    reachable L buffer (c + Z.to_nat len) z.
Proof.
  induction 1 as [|n len Hcn IH Hlt Hlen]; [now left|]. right.
  destruct IH as [->|(len' & Hc & Hlen' & Hr)].
  - exists len. repeat split; trivial. apply reachable_start.
  - exists len'. repeat split; trivial. now apply reachable_step.
Qed.

Lemma scan_loop_at_end (fuel : nat) (useIfmibData : bool) (buffer : list byte)
    (next : nat) (metrics : NetworkMetrics) (w : World) :
  (length buffer <= next)%nat ->
  scan_loop os L fuel useIfmibData buffer next metrics w = ret (next, metrics) w.
Proof.
  intros H. apply Nat.ltb_ge in H. destruct fuel; simpl; now rewrite H.
Qed.

(** With strictly positive declared lengths the loop needs at most as many
    executions of its body as bytes are left. *)
Lemma scan_loop_halts (useIfmibData : bool) (buffer : list byte) (fuel : nat) :
  forall (next : nat) (metrics : NetworkMetrics) (w : World),
    (forall n, reachable L buffer next n -> (n < length buffer)%nat ->
               ifm_msglen L buffer n <> Some 0) ->
    (length buffer <= fuel + next)%nat ->
    halts (scan_loop os L fuel useIfmibData buffer next metrics w).
Proof.
  induction fuel as [|fuel IH]; intros next metrics w Hpos Hfuel.
  - rewrite scan_loop_at_end by lia. discriminate.
  - simpl. destruct (next <? length buffer)%nat eqn:Hlt; [|discriminate].
    apply Nat.ltb_lt in Hlt.
    pose proof (halts_scan_body useIfmibData buffer next metrics w) as Hb.
    unfold halts, bind in *.
    destruct (scan_body os L useIfmibData buffer next metrics w)
      as [[[st|s| |] w1] t1] eqn:E; try discriminate; [|now elim Hb].
    destruct (scan_body_done _ _ _ _ _ _ _ _ E) as (len & Hlen & Hnn & Hst).
    assert (len <> 0).
    { intros ->. apply (Hpos next); trivial. apply reachable_start. }
    specialize (IH (fst st) (snd st) w1).
    destruct (scan_loop os L fuel useIfmibData buffer (fst st) (snd st) w1)
      as [[o w2] t2]. apply IH.
    + intros n Hn. apply Hpos. apply reachable_trans with (fst st); trivial.
      rewrite Hst. apply reachable_step; trivial. apply reachable_start.
    + rewrite Hst. lia.
Qed.

(** A record of declared length zero on the path of the cursor is never
    passed. *)
Lemma scan_loop_stuck (useIfmibData : bool) (buffer : list byte) (z : nat) :
  (z < length buffer)%nat ->
  ifm_msglen L buffer z = Some 0 ->
  forall (fuel next : nat) (metrics : NetworkMetrics) (w : World)
         (st : nat * NetworkMetrics),
    reachable L buffer next z ->
    outcome_of (scan_loop os L fuel useIfmibData buffer next metrics w) <> Done st.
Proof.
  intros Hz Hzero. induction fuel as [|fuel IH]; intros next metrics w st Hr.
  - assert (Hlt : (next < length buffer)%nat).
    { destruct (reachable_head _ _ _ Hr) as [->|(len & Hc & _)]; trivial. }
    simpl. apply Nat.ltb_lt in Hlt. rewrite Hlt. discriminate.
  - assert (Hlt : (next < length buffer)%nat).
    { destruct (reachable_head _ _ _ Hr) as [->|(len & Hc & _)]; trivial. }
    simpl. apply Nat.ltb_lt in Hlt. rewrite Hlt.
    apply bind_not_done. intros st' w1 t1 E b.
    destruct (scan_body_done _ _ _ _ _ _ _ _ E) as (len & Hlen & _ & Hst).
    apply IH. rewrite Hst.
    destruct (reachable_head _ _ _ Hr) as [->|(len' & _ & Hlen' & Hr')].
    + rewrite Hzero in Hlen. injection Hlen as <-. simpl.
      rewrite Nat.add_0_r. apply reachable_start.
    + rewrite Hlen' in Hlen. injection Hlen as <-. exact Hr'.
Qed.


(** C1 (amended): the declared length is not validated. A record whose
    fields lie inside the buffer and whose declared length reaches or
    passes the end of the buffer is processed like any other record, after
    which the scan ends normally; a reachable record of declared length
    zero is never passed, so the scan does not complete; and a pass exits
    only with status 1, right after a failed sysctl call and its
    diagnostic. *)
Theorem declared_length_is_not_validated (fuel : nat) (useIfmibData : bool)
    (w : World) :
  (forall pre r rec len metrics,
      parse_record L r = Some rec ->
      ifm_msglen L r 0 = Some len ->
      (length r <= Z.to_nat len)%nat ->
      scan_loop os L (S fuel) useIfmibData (pre ++ r) (length pre) metrics w =
      (c <- select_counters os useIfmibData rec ;;
       ret ((length pre + Z.to_nat len)%nat,
            match c with Some d => accumulate metrics d | None => metrics end)) w)
  /\ (forall buffer z metrics st,
        reachable L buffer 0 z -> (z < length buffer)%nat ->
        ifm_msglen L buffer z = Some 0 ->
        outcome_of (scan_loop os L fuel useIfmibData buffer 0 metrics w) <> Done st)
  /\ (forall status,
        outcome_of (GetNetworkMetrics os L fuel useIfmibData w) = Exited status ->
        status = 1 /\
        exists t name errno,
          log_of (GetNetworkMetrics os L fuel useIfmibData w) =
          t ++ [EvSysctl name false; EvStderr "sysctl: %s\n" errno]).
Proof.
  split; [|split].
  - intros pre r rec len metrics Ep El Hlen.
    assert (Hpos : (0 < length r)%nat).
    { unfold parse_record in Ep.
      destruct (ifm_type L r 0) as [t|] eqn:Et; [|discriminate].
      unfold ifm_type in Et. apply load_le_length in Et. lia. }
    simpl scan_loop.
    assert (Hlt : (length pre <? length (pre ++ r))%nat = true).
    { apply Nat.ltb_lt. rewrite length_app. lia. }
    rewrite Hlt.
    pose proof (scan_body_parsed useIfmibData pre r [] rec len metrics w Ep El) as Hb.
    rewrite app_nil_r in Hb.
    rewrite (bind_congr_l _ _ _ w Hb), bind_assoc.
    apply bind_ext. intros c w1. rewrite bind_ret_l. simpl fst. simpl snd.
    apply scan_loop_at_end. rewrite length_app. lia.
  - intros buffer z metrics st Hr Hz Hzero. now apply scan_loop_stuck with z.
  - intros status Hs.
    pose proof (tidy_GetNetworkMetrics fuel useIfmibData w) as Ht.
    unfold tidy in Ht. rewrite Hs in Ht.
    destruct Ht as (-> & t & name & errno & Hlog & _).
    split; [reflexivity|]. now exists t, name, errno.
Qed.

(** ** Records, sources and sums *)

Lemma scan_loop_concat_short (useIfmibData : bool) (rs : list (list byte)) :
  Forall (fun r => well_formed L r = true) rs ->
  forall (fuel : nat) (pre : list byte) (metrics : NetworkMetrics) (w : World)
         (st : nat * NetworkMetrics),
    (fuel < length rs)%nat ->
    outcome_of (scan_loop os L fuel useIfmibData (pre ++ concat rs) (length pre)
                  metrics w) <> Done st.
Proof.
  induction 1 as [|r rs Hr Hrs IH]; intros fuel pre metrics w st Hfuel.
  - simpl in Hfuel. lia.
  - destruct (well_formed_inv r Hr) as (len & rec & _ & _ & _ & Hpos).
    assert (Hlt : (length pre <? length (pre ++ r ++ concat rs))%nat = true).
    { apply Nat.ltb_lt. rewrite !length_app. lia. }
    destruct fuel as [|fuel]; simpl concat; simpl scan_loop; rewrite Hlt;
      [discriminate|].
    rewrite (bind_congr_l _ _ _ w (scan_body_well_formed _ _ _ _ _ _ Hr)).
    rewrite bind_assoc. apply bind_not_done. intros c w1 t1 _ b.
    rewrite bind_ret_l. simpl fst. simpl snd.
    replace (length pre + length r)%nat with (length (pre ++ r))
      by now rewrite length_app.
    replace (pre ++ r ++ concat rs) with ((pre ++ r) ++ concat rs)
      by now rewrite app_assoc.
    apply IH. simpl in Hfuel. lia.
Qed.

Lemma classify_generic_iff (r : list byte) :
  well_formed L r = true ->
  (is_generic (classify L r) = true <-> ifm_type L r 0 = Some (RTM_IFINFO2 L)).
Proof.
  intros Hwf. destruct (well_formed_inv r Hwf) as (len & rec & _ & Ep & _).
  unfold classify. rewrite Ep. unfold parse_record in Ep.
  destruct (ifm_type L r 0) as [t|] eqn:Et; [|discriminate].
  destruct (Z.eqb_spec t (RTM_IFINFO2 L)) as [->|Hne].
  - destruct (ifm_index L r 0); [|discriminate].
    destruct (ifm_data L r 0); [|discriminate].
    injection Ep as <-. simpl. split; trivial.
  - injection Ep as <-. simpl. split; [discriminate|].
    intros [= E]. contradiction.
Qed.

(** C8: on a buffer that is the concatenation of N well-formed records,
    the cursor loop is the in-order pass over the N classified records and
    ends with the cursor at the buffer length; with fewer than N executions
    of its body it does not complete; and a record is classified
    [GenericInfo] exactly when its type tag is [RTM_IFINFO2]. *)
Theorem parser_visits_each_record_in_order (useIfmibData : bool)
    (rs : list (list byte)) (fuel : nat) (metrics : NetworkMetrics) (w : World) :
  Forall (fun r => well_formed L r = true) rs ->
  ((length rs <= fuel)%nat ->
   scan_loop os L fuel useIfmibData (concat rs) 0 metrics w =
   (m <- aggregate_records os useIfmibData (map (classify L) rs) metrics ;;
    ret (length (concat rs), m)) w)
  /\ ((fuel < length rs)%nat ->
      forall st,
        outcome_of (scan_loop os L fuel useIfmibData (concat rs) 0 metrics w)
        <> Done st)
  /\ length (map (classify L) rs) = length rs
  /\ Forall (fun r => is_generic (classify L r) = true <->
                      ifm_type L r 0 = Some (RTM_IFINFO2 L)) rs.
Proof.
  intros Hwf. split; [|split; [|split]].
  - intros Hfuel. exact (scan_loop_concat useIfmibData rs Hwf fuel [] metrics w Hfuel).
  - intros Hfuel st.
    exact (scan_loop_concat_short useIfmibData rs Hwf fuel [] metrics w st Hfuel).
  - apply length_map.
  - eapply Forall_impl; [|exact Hwf]. intros r Hr. now apply classify_generic_iff.
Qed.

Lemma aggregate_records_embedded (recs : list InterfaceRecord) :
  forall (metrics : NetworkMetrics) (w : World),
    aggregate_records os false recs metrics w =
    (Done (fold_left accumulate (embedded_counters recs) metrics), w, []).
Proof.
  induction recs as [|[index d|] recs IH]; intros metrics w; simpl.
  - reflexivity.
  - rewrite bind_ret_l. apply IH.
  - rewrite bind_ret_l. apply IH.
Qed.

Lemma aggregate_records_extended (recs : list InterfaceRecord) :
  forall (metrics : NetworkMetrics) (w : World),
    outcome_of (aggregate_records os true recs metrics w) = Exited 1 \/
    exists w',
      aggregate_records os true recs metrics w =
      (Done (fold_left accumulate
               (extended_counters os (generic_indices recs) w) metrics),
       w', map query_ok (generic_indices recs)).
Proof.
  induction recs as [|[index d|] recs IH]; intros metrics w; simpl.
  - right. now exists w.
  - unfold bind, call_sysctl_ifdata, ret, fprintf_stderr, emit, exit.
    destruct (sysctl_ifdata os index w) as [[errno|mibdata] w1]; simpl.
    + now left.
    + destruct (IH (accumulate metrics (ifmd_data mibdata)) w1) as [He|(w' & E)].
      * left. unfold outcome_of in *.
        destruct (aggregate_records os true recs _ w1) as [[o w2] t2].
        simpl in *. exact He.
      * right. exists w'. now rewrite E.
  - rewrite bind_ret_l. apply IH.
Qed.

Lemma GetNetworkMetrics_delivered (fuel : nat) (useIfmibData : bool)
    (w w1 w2 : World) (len : nat) (buffer : list byte) :
  sysctl_size os w = (inr len, w1) ->
  sysctl_iflist os len w1 = (inr buffer, w2) ->
  GetNetworkMetrics os L fuel useIfmibData w =
  match (st <- scan_loop os L fuel useIfmibData buffer 0 zero_metrics ;;
         ret (snd st)) w2 with
  | (o, w3, t) => (o, w3, primary_ok ++ t)
  end.
Proof.
  intros H1 H2. unfold GetNetworkMetrics.
  unfold bind at 1. unfold call_sysctl_size. rewrite H1.
  unfold bind at 1. unfold call_sysctl_iflist. rewrite H2.
  destruct ((st <- scan_loop os L fuel useIfmibData buffer 0 zero_metrics ;;
             ret (snd st)) w2) as [[o w3] t].
  reflexivity.
Qed.

Lemma quiet_bind {A B : Type} (m : M World A) (f : A -> M World B) (w : World) :
  quiet (m w) -> (forall a w', quiet (f a w')) -> quiet (bind m f w).
Proof.
  unfold quiet, log_of, bind. intros Hm Hf.
  destruct (m w) as [[[a|s| |] w1] t1]; trivial.
  specialize (Hf a w1). destruct (f a w1) as [[o w2] t2]. simpl in *.
  now rewrite filter_app, Hm, Hf.
Qed.

Lemma quiet_load (buffer : list byte) (off width : nat) (w : World) :
  quiet (load buffer off width w).
Proof. unfold quiet, load. now destruct (load_le buffer off width). Qed.

Lemma quiet_scan_loop (buffer : list byte) (fuel : nat) :
  forall (next : nat) (metrics : NetworkMetrics) (w : World),
    quiet (scan_loop os L fuel false buffer next metrics w).
Proof.
  induction fuel as [|fuel IH]; intros next metrics w; simpl;
    destruct (next <? length buffer)%nat; try reflexivity.
  apply quiet_bind; [|intros st w'; apply IH].
  unfold scan_body. apply quiet_bind; [apply quiet_load|]. intros type w1.
  apply quiet_bind.
  - destruct (type =? RTM_IFINFO2 L); [|reflexivity].
    repeat (apply quiet_bind; [apply quiet_load|]; intros ? ?). reflexivity.
  - intros m w2. apply quiet_bind; [apply quiet_load|]. reflexivity.
Qed.

Lemma quiet_GetNetworkMetrics (fuel : nat) (w : World) :
  quiet (GetNetworkMetrics os L fuel false w).
Proof.
  unfold GetNetworkMetrics. apply quiet_bind.
  - unfold quiet, call_sysctl_size. now destruct (sysctl_size os w).
  - intros [errno|len] w1; [reflexivity|]. apply quiet_bind.
    + unfold quiet, call_sysctl_iflist. now destruct (sysctl_iflist os len w1).
    + intros [errno|buffer] w2; [reflexivity|].
      apply quiet_bind; [apply quiet_scan_loop|]. reflexivity.
Qed.

Lemma GetNetworkMetrics_records (fuel : nat) (useIfmibData : bool)
    (rs : list (list byte)) (w w1 w2 : World) (len : nat) :
  Forall (fun r => well_formed L r = true) rs ->
  sysctl_size os w = (inr len, w1) ->
  sysctl_iflist os len w1 = (inr (concat rs), w2) ->
  (length rs <= fuel)%nat ->
  GetNetworkMetrics os L fuel useIfmibData w =
  match aggregate_records os useIfmibData (map (classify L) rs) zero_metrics w2 with
  | (o, w3, t) => (o, w3, primary_ok ++ t)
  end.
Proof.
  intros Hwf H1 H2 Hfuel.
  rewrite (GetNetworkMetrics_delivered fuel useIfmibData _ _ _ _ _ H1 H2).
  pose proof (scan_loop_concat useIfmibData rs Hwf fuel [] zero_metrics w2 Hfuel)
    as Hs.
  simpl in Hs. rewrite (bind_congr_l _ _ _ w2 Hs), bind_assoc.
  unfold bind, ret.
  destruct (aggregate_records os useIfmibData (map (classify L) rs) zero_metrics w2)
    as [[[m|s| |] w3] t3]; simpl; rewrite ?app_nil_r; reflexivity.
Qed.

(** When the operating system answers every query, the extended pass asks
    once for each [GenericInfo] record, in order, and sums the answers. *)
Lemma aggregate_records_answered (recs : list InterfaceRecord) :
  forall (metrics : NetworkMetrics) (w : World),
    all_answered os (generic_indices recs) w = true ->
    aggregate_records os true recs metrics w =
    (Done (fold_left accumulate
             (extended_counters os (generic_indices recs) w) metrics),
     world_after os (generic_indices recs) w,
     map query_ok (generic_indices recs)).
Proof.
  induction recs as [|[index d|] recs IH]; intros metrics w; simpl.
  - reflexivity.
  - unfold bind, call_sysctl_ifdata, ret, fprintf_stderr, emit, exit.
    destruct (sysctl_ifdata os index w) as [[errno|mibdata] w1]; simpl;
      [discriminate|].
    intros H. now rewrite (IH _ _ H).
  - intros H. rewrite bind_ret_l. now apply IH.
Qed.

(** When it does not, the extended pass exits at the first query the
    operating system fails, with the [errno] of that very call. *)
Lemma aggregate_records_unanswered (recs : list InterfaceRecord) :
  forall (metrics : NetworkMetrics) (w : World),
    all_answered os (generic_indices recs) w = false ->
    exists asked index later errno,
      generic_indices recs = asked ++ index :: later /\
      all_answered os asked w = true /\
      fst (sysctl_ifdata os index (world_after os asked w)) = inl errno /\
      aggregate_records os true recs metrics w =
      (Exited 1, snd (sysctl_ifdata os index (world_after os asked w)),
       map query_ok asked ++
       [EvSysctl (IFMIB_IFDATA index) false; EvStderr "sysctl: %s\n" errno]).
Proof.
  induction recs as [|[index d|] recs IH]; intros metrics w; simpl.
  - discriminate.
  - unfold bind, call_sysctl_ifdata, ret, fprintf_stderr, emit, exit.
    destruct (sysctl_ifdata os index w) as [[errno|mibdata] w1] eqn:E; simpl.
    + intros _. exists [], index, (generic_indices recs), errno.
      simpl. rewrite E. repeat split.
    + intros H.
      destruct (IH (accumulate metrics (ifmd_data mibdata)) w1 H)
        as (asked & i & later & errno & Hi & Ha & He & Hr).
      exists (index :: asked), i, later, errno. simpl. rewrite E. simpl.
      rewrite Hr. split; [now rewrite Hi|]. split; [exact Ha|].
      split; [exact He|reflexivity].
  - intros H. rewrite bind_ret_l. now apply IH.
Qed.

(** C4: with [useIfmibData] false no pass ever makes a secondary query,
    and on well-formed records the result is the aggregation of the
    embedded counters of the [GenericInfo] records. With [useIfmibData]
    true, when the operating system answers them, the pass makes exactly
    one secondary query per [GenericInfo] record, in order and keyed by the
    record's interface index, and its result is the aggregation of the
    answers alone; when the operating system fails one of them, the
    pass has asked for the records before that one and exits with status 1
    on that query, with its [errno]. *)
Theorem source_selection (fuel : nat) (w : World) :
  filter is_ifdata_query (log_of (GetNetworkMetrics os L fuel false w)) = []
  /\ (forall rs len w1 w2,
        Forall (fun r => well_formed L r = true) rs ->
        sysctl_size os w = (inr len, w1) ->
        sysctl_iflist os len w1 = (inr (concat rs), w2) ->
        (length rs <= fuel)%nat ->
        GetNetworkMetrics os L fuel false w =
        (Done (aggregate (embedded_counters (map (classify L) rs))), w2, primary_ok)
        /\ (all_answered os (generic_indices (map (classify L) rs)) w2 = true ->
            GetNetworkMetrics os L fuel true w =
            (Done (aggregate
                     (extended_counters os
                        (generic_indices (map (classify L) rs)) w2)),
             world_after os (generic_indices (map (classify L) rs)) w2,
             primary_ok ++ map query_ok (generic_indices (map (classify L) rs))))
        /\ (all_answered os (generic_indices (map (classify L) rs)) w2 = false ->
            exists asked index later errno,
              generic_indices (map (classify L) rs) = asked ++ index :: later /\
              all_answered os asked w2 = true /\
              fst (sysctl_ifdata os index (world_after os asked w2)) = inl errno /\
              GetNetworkMetrics os L fuel true w =
              (Exited 1, snd (sysctl_ifdata os index (world_after os asked w2)),
               primary_ok ++ map query_ok asked ++
               [EvSysctl (IFMIB_IFDATA index) false;
                EvStderr "sysctl: %s\n" errno]))).
Proof.
  split; [apply quiet_GetNetworkMetrics|].
  intros rs len w1 w2 Hwf H1 H2 Hfuel. split; [|split].
  - rewrite (GetNetworkMetrics_records fuel false rs w w1 w2 len Hwf H1 H2 Hfuel).
    now rewrite aggregate_records_embedded.
  - intros Hall.
    rewrite (GetNetworkMetrics_records fuel true rs w w1 w2 len Hwf H1 H2 Hfuel).
    now rewrite (aggregate_records_answered _ _ _ Hall).
  - intros Hall.
    rewrite (GetNetworkMetrics_records fuel true rs w w1 w2 len Hwf H1 H2 Hfuel).
    destruct (aggregate_records_unanswered _ zero_metrics _ Hall)
      as (asked & index & later & errno & Hi & Ha & He & Hr).
    exists asked, index, later, errno. rewrite Hr.
    split; [exact Hi|]. split; [exact Ha|]. split; [exact He|reflexivity].
Qed.

Lemma wrap64_add_wrap_l (a b : Z) : wrap64 (wrap64 a + b) = wrap64 (a + b).
Proof.
  unfold wrap64. rewrite Z.add_mod_idemp_l; [reflexivity|].
  pose proof UINT64_MOD_pos. lia.
Qed.

Lemma fold_accumulate (sets : list if_data64) :
  forall metrics : NetworkMetrics,
    wf_metrics metrics ->
    fold_left accumulate sets metrics =
    {| totalInputBytes :=
         wrap64 (totalInputBytes metrics + sum_Z (map ifi_ibytes sets));
       totalOutputBytes :=
         wrap64 (totalOutputBytes metrics + sum_Z (map ifi_obytes sets));
       totalInputPackets :=
         wrap64 (totalInputPackets metrics + sum_Z (map ifi_ipackets sets));
       totalOutputPackets :=
         wrap64 (totalOutputPackets metrics + sum_Z (map ifi_opackets sets)) |}.
Proof.
  induction sets as [|d sets IH]; intros metrics Hwf.
  - destruct metrics as [a b c e]. destruct Hwf as (Ha & Hb & Hc & He).
    simpl in *. rewrite !Z.add_0_r. now rewrite !wrap64_small.
  - simpl fold_left. rewrite IH by apply accumulate_wf.
    unfold accumulate, add64. simpl.
    rewrite !wrap64_add_wrap_l, !Z.add_assoc. reflexivity.
Qed.

Lemma aggregate_sums (sets : list if_data64) :
  aggregate sets =
  {| totalInputBytes := wrap64 (sum_Z (map ifi_ibytes sets));
     totalOutputBytes := wrap64 (sum_Z (map ifi_obytes sets));
     totalInputPackets := wrap64 (sum_Z (map ifi_ipackets sets));
     totalOutputPackets := wrap64 (sum_Z (map ifi_opackets sets)) |}.
Proof.
  unfold aggregate. rewrite fold_accumulate by apply zero_metrics_wf. reflexivity.
Qed.

Lemma sum_Z_permutation (l l' : list Z) : Permutation l l' -> sum_Z l = sum_Z l'.
Proof.
  induction 1 as [|x l l' _ IH|x y l|l l' l'' _ IH1 _ IH2]; simpl; lia.
Qed.

Lemma aggregate_permutation (sets sets' : list if_data64) :
  Permutation sets sets' -> aggregate sets = aggregate sets'.
Proof.
  intros H. rewrite !aggregate_sums.
  rewrite (sum_Z_permutation _ _ (Permutation_map ifi_ibytes H)),
          (sum_Z_permutation _ _ (Permutation_map ifi_obytes H)),
          (sum_Z_permutation _ _ (Permutation_map ifi_ipackets H)),
          (sum_Z_permutation _ _ (Permutation_map ifi_opackets H)).
  reflexivity.
Qed.

Lemma embedded_counters_permutation (recs recs' : list InterfaceRecord) :
  Permutation recs recs' ->
  Permutation (embedded_counters recs) (embedded_counters recs').
Proof.
  induction 1 as [|x l l' _ IH|x y l|l l' l'' _ IH1 _ IH2]; simpl.
  - constructor.
  - destruct x; [now constructor|exact IH].
  - destruct x, y; try apply Permutation_refl. apply perm_swap.
  - now apply perm_trans with (embedded_counters l').
Qed.

Lemma scan_loop_embedded (rs : list (list byte)) (fuel : nat) (w : World) :
  Forall (fun r => well_formed L r = true) rs ->
  (length rs <= fuel)%nat ->
  scan_loop os L fuel false (concat rs) 0 zero_metrics w =
  (Done (length (concat rs), aggregate (embedded_counters (map (classify L) rs))),
   w, []).
Proof.
  intros Hwf Hfuel.
  pose proof (scan_loop_concat false rs Hwf fuel [] zero_metrics w Hfuel) as Hs.
  simpl in Hs. rewrite Hs. unfold bind. rewrite aggregate_records_embedded.
  reflexivity.
Qed.

(** C9: the aggregation is, field by field, the sum modulo 2^64 of that
    counter over the counter sets; it does not depend on their order; a
    pass over well-formed records returns the aggregation of the counter
    sets of all its [GenericInfo] records, whichever the source; and
    permuting the records of the buffer leaves the result unchanged. *)
Theorem aggregation_is_order_independent_sum :
  (forall sets,
      aggregate sets =
      {| totalInputBytes := wrap64 (sum_Z (map ifi_ibytes sets));
         totalOutputBytes := wrap64 (sum_Z (map ifi_obytes sets));
         totalInputPackets := wrap64 (sum_Z (map ifi_ipackets sets));
         totalOutputPackets := wrap64 (sum_Z (map ifi_opackets sets)) |})
  /\ (forall sets sets', Permutation sets sets' -> aggregate sets = aggregate sets')
  /\ (forall useIfmibData rs fuel w n m,
        Forall (fun r => well_formed L r = true) rs ->
        (length rs <= fuel)%nat ->
        outcome_of (scan_loop os L fuel useIfmibData (concat rs) 0 zero_metrics w)
        = Done (n, m) ->
        m = aggregate
              (if useIfmibData
               then extended_counters os (generic_indices (map (classify L) rs)) w
               else embedded_counters (map (classify L) rs)))
  /\ (forall rs rs' fuel w,
        Forall (fun r => well_formed L r = true) rs ->
        Permutation rs rs' ->
        (length rs <= fuel)%nat ->
        outcome_of (scan_loop os L fuel false (concat rs) 0 zero_metrics w) =
        Done (length (concat rs),
              aggregate (embedded_counters (map (classify L) rs)))
        /\ outcome_of (scan_loop os L fuel false (concat rs') 0 zero_metrics w) =
           Done (length (concat rs'),
                 aggregate (embedded_counters (map (classify L) rs)))).
Proof.
  split; [exact aggregate_sums|]. split; [exact aggregate_permutation|]. split.
  - intros useIfmibData rs fuel w n m Hwf Hfuel.
    destruct useIfmibData.
    + pose proof (scan_loop_concat true rs Hwf fuel [] zero_metrics w Hfuel) as Hs.
      simpl in Hs. rewrite Hs.
      destruct (aggregate_records_extended (map (classify L) rs) zero_metrics w)
        as [He|(w' & E)]; unfold bind, outcome_of in *.
      * destruct (aggregate_records os true (map (classify L) rs) zero_metrics w)
          as [[o w1] t1]. simpl in He. subst o. discriminate.
      * rewrite E. simpl. now intros [= _ <-].
    + rewrite scan_loop_embedded by trivial. unfold outcome_of. simpl.
      now intros [= _ <-].
  - intros rs rs' fuel w Hwf Hperm Hfuel. split.
    + now rewrite scan_loop_embedded.
    + rewrite scan_loop_embedded.
      * unfold outcome_of. simpl. f_equal. f_equal. symmetry.
        apply aggregate_permutation, embedded_counters_permutation.
        now apply Permutation_map.
      * eapply Permutation_Forall; eauto.
      * now rewrite <- (Permutation_length Hperm).
Qed.

(** The boolean check of the declared lengths is sound. *)
Lemma lengths_positive_sound (buffer : list byte) (fuel : nat) :
  forall start : nat,
    lengths_positive L fuel buffer start = true ->
    forall n, reachable L buffer start n -> (n < length buffer)%nat ->
              ifm_msglen L buffer n <> Some 0.
Proof.
  induction fuel as [|fuel IH]; intros start Hc n Hr Hn; simpl in Hc.
  - destruct (reachable_head _ _ _ Hr) as [->|(len & Hlt & _)].
    + apply Nat.ltb_lt in Hn. rewrite Hn in Hc. discriminate.
    + apply Nat.ltb_lt in Hlt. rewrite Hlt in Hc. discriminate.
  - destruct (reachable_head _ _ _ Hr) as [->|(len & Hlt & Hlen & Hr')].
    + apply Nat.ltb_lt in Hn. rewrite Hn in Hc.
      destruct (ifm_msglen L buffer n) as [len|]; [|discriminate].
      apply andb_prop in Hc as [Hpos _]. apply Z.ltb_lt in Hpos.
      intros [= ->]. lia.
    + apply Nat.ltb_lt in Hlt. rewrite Hlt, Hlen in Hc.
      apply andb_prop in Hc as [_ Hc]. now apply (IH _ Hc n).
Qed.

End Properties.

(** * The theorems at work on concrete inputs *)

Lemma sample_records_well_formed :
  Forall (fun r => well_formed macos_layout r = true) sample_records.
Proof.
  repeat (constructor; [vm_compute; reflexivity|]). constructor.
Qed.

Lemma stuck_buffer_reaches_zero_length :
  reachable macos_layout stuck_buffer 0 20.
Proof.
  refine (reachable_step macos_layout stuck_buffer 0 0 20
            (reachable_start _ _ _) _ _).
  - apply Nat.ltb_lt. vm_compute. reflexivity.
  - vm_compute. reflexivity.
Qed.

(** C1, as stated, fails: a lone record that declares 200 bytes in a buffer
    of 16 is accepted, and the pass returns normally without any error; a
    lone record that declares no bytes is still being re-read after 1000
    executions of the loop body, again without any error. *)
Lemma overrunning_record_is_accepted :
  ifm_msglen macos_layout overrunning_record 0 = Some 200 /\
  length overrunning_record = 16%nat /\
  GetNetworkMetrics overrunning_os macos_layout 1 false 0%nat =
  (Done zero_metrics, 1%nat, primary_ok) /\
  GetNetworkMetrics overrunning_os macos_layout 1 true 0%nat =
  (Done zero_metrics, 1%nat, primary_ok) /\
  ifm_msglen macos_layout zero_length_record 0 = Some 0 /\
  GetNetworkMetrics zero_length_os macos_layout 1000 false 0%nat =
  (OutOfFuel, 1%nat, primary_ok).
Proof.
  repeat split; vm_compute; reflexivity.
Qed.

(** The amended C1 on [overrun_buffer], [stuck_buffer] and a failing
    secondary query. *)
Lemma declared_length_is_not_validated_witness :
  (parse_record macos_layout overrunning_record = Some Other /\
   ifm_msglen macos_layout overrunning_record 0 = Some 200 /\
   (length overrunning_record <= Z.to_nat 200)%nat /\
   scan_loop sample_os macos_layout 1 true overrun_buffer 20 zero_metrics 0%nat =
   (Done (220%nat, zero_metrics), 0%nat, []))
  /\ (reachable macos_layout stuck_buffer 0 20 /\
      (20 < length stuck_buffer)%nat /\
      ifm_msglen macos_layout stuck_buffer 20 = Some 0 /\
      forall st,
        outcome_of (scan_loop sample_os macos_layout 7 true stuck_buffer 0
                      zero_metrics 0%nat) <> Done st)
  /\ (outcome_of (GetNetworkMetrics failing_secondary_os macos_layout 7 true 0%nat)
      = Exited 1 /\
      exists t name errno,
        log_of (GetNetworkMetrics failing_secondary_os macos_layout 7 true 0%nat) =
        t ++ [EvSysctl name false; EvStderr "sysctl: %s\n" errno]).
Proof.
  assert (Hp : parse_record macos_layout overrunning_record = Some Other)
    by (vm_compute; reflexivity).
  assert (Hl : ifm_msglen macos_layout overrunning_record 0 = Some 200)
    by (vm_compute; reflexivity).
  assert (Hn : (length overrunning_record <= Z.to_nat 200)%nat)
    by (apply Nat.leb_le; vm_compute; reflexivity).
  assert (Hz : (20 < length stuck_buffer)%nat)
    by (apply Nat.ltb_lt; vm_compute; reflexivity).
  assert (H0 : ifm_msglen macos_layout stuck_buffer 20 = Some 0)
    by (vm_compute; reflexivity).
  assert (He : outcome_of (GetNetworkMetrics failing_secondary_os macos_layout 7
                             true 0%nat) = Exited 1)
    by (vm_compute; reflexivity).
  split; [|split].
  - split; [exact Hp|]. split; [exact Hl|]. split; [exact Hn|].
    exact (proj1 (declared_length_is_not_validated nat sample_os macos_layout
                    0 true 0%nat)
             addr_record overrunning_record Other 200 zero_metrics Hp Hl Hn).
  - split; [exact stuck_buffer_reaches_zero_length|].
    split; [exact Hz|]. split; [exact H0|].
    intros st.
      exact (proj1 (proj2 (declared_length_is_not_validated nat sample_os
                             macos_layout 7 true 0%nat))
               stuck_buffer 20%nat zero_metrics st
               stuck_buffer_reaches_zero_length Hz H0).
  - split; [exact He|].
    exact (proj2 (proj2 (proj2 (declared_length_is_not_validated nat
                                  failing_secondary_os macos_layout 7 true 0%nat))
                    1 He)).
Defined.

(** The input counter wrapped from 2^64-5 to 3, the output counter grew:
    one warning, for the input direction; and on [wrapping_os], where the
    pass after this one returns 10 input bytes, the next report has the
    delta 7 against the current sample, not against the previous one. *)
Lemma overflow_warning_iff_counter_decreased_witness :
  wf_metrics wrapped_previous /\ wf_metrics wrapped_current /\
  skipn 6 (log_of (report wrapped_previous wrapped_current 0%nat)) =
  [EvStdout "!! INPUT OVERFLOW !!\n" [];
   EvStdout "Before: %llu, After: %llu, Difference: %llu\n"
     [2 ^ 64 - 5; 3; 2 ^ 64 - 8];
   EvStdout "\n\n" []]
  /\ GetNetworkMetrics wrapping_os macos_layout 1 true 1%nat =
     (Done wrapped_current, 2%nat, primary_ok ++ [query_ok 4])
  /\ main_loop wrapping_os macos_layout 2 1 true wrapped_previous 1%nat =
     match main_loop wrapping_os macos_layout 1 1 true wrapped_current 2%nat with
     | (o, w', t') =>
         (o, w',
          (EvSleep 1 :: (primary_ok ++ [query_ok 4]) ++
           log_of (report wrapped_previous wrapped_current 2%nat)) ++ t')
     end
  /\ reported (log_of (main_loop wrapping_os macos_layout 2 1 true
                         wrapped_previous 1%nat)) =
     [(9, 2); (9, 2); (3, 8); (250, 150); (12, 3); (12, 3); (10, 7); (300, 50)].
Proof.
  assert (Hp : wf_metrics wrapped_previous)
    by (unfold wf_metrics, is_uint64, UINT64_MOD; simpl; lia).
  assert (Hc : wf_metrics wrapped_current)
    by (unfold wf_metrics, is_uint64, UINT64_MOD; simpl; lia).
  assert (Hg : GetNetworkMetrics wrapping_os macos_layout 1 true 1%nat =
               (Done wrapped_current, 2%nat, primary_ok ++ [query_ok 4]))
    by (vm_compute; reflexivity).
  pose proof (proj2 (proj2 (proj2 (proj2 (proj2
                (overflow_warning_iff_counter_decreased nat wrapping_os
                   macos_layout wrapped_previous wrapped_current 2%nat Hp Hc)))))
                1%nat true 1%nat _ 1%nat Hg) as Hnext.
  split; [exact Hp|]. split; [exact Hc|]. split.
  - exact (proj1 (proj2 (proj2 (overflow_warning_iff_counter_decreased nat sample_os
                                  macos_layout wrapped_previous wrapped_current
                                  0%nat Hp Hc)))).
  - split; [exact Hg|]. split; [exact Hnext|].
    rewrite Hnext. vm_compute. reflexivity.
Defined.

(** The embedded source on the three sample records; the extended source
    on [sample_os], which answers both queries, and on
    [partly_failing_os], which fails the second one. *)
Lemma source_selection_witness :
  Forall (fun r => well_formed macos_layout r = true) sample_records /\
  sysctl_size sample_os 0%nat = (inr 340%nat, 0%nat) /\
  sysctl_iflist sample_os 340 0%nat = (inr (concat sample_records), 1%nat) /\
  (length sample_records <= 3)%nat /\
  GetNetworkMetrics sample_os macos_layout 3 false 0%nat =
  (Done (aggregate (embedded_counters (map (classify macos_layout) sample_records))),
   1%nat, primary_ok)
  /\ all_answered sample_os
       (generic_indices (map (classify macos_layout) sample_records)) 1%nat = true
  /\ GetNetworkMetrics sample_os macos_layout 3 true 0%nat =
     (Done (mkNetworkMetrics 5000001100 7000000200 12 23), 1%nat,
      primary_ok ++ [query_ok 4; query_ok 1])
  /\ sysctl_size partly_failing_os 0%nat = (inr 340%nat, 0%nat)
  /\ sysctl_iflist partly_failing_os 340 0%nat = (inr (concat sample_records), 1%nat)
  /\ all_answered partly_failing_os
       (generic_indices (map (classify macos_layout) sample_records)) 1%nat = false
  /\ exists asked index later errno,
       generic_indices (map (classify macos_layout) sample_records) =
       asked ++ index :: later /\
       all_answered partly_failing_os asked 1%nat = true /\
       fst (sysctl_ifdata partly_failing_os index
              (world_after partly_failing_os asked 1%nat)) = inl errno /\
       GetNetworkMetrics partly_failing_os macos_layout 3 true 0%nat =
       (Exited 1,
        snd (sysctl_ifdata partly_failing_os index
               (world_after partly_failing_os asked 1%nat)),
        primary_ok ++ map query_ok asked ++
        [EvSysctl (IFMIB_IFDATA index) false; EvStderr "sysctl: %s\n" errno]).
Proof.
  assert (H1 : sysctl_size sample_os 0%nat = (inr 340%nat, 0%nat))
    by (vm_compute; reflexivity).
  assert (H2 : sysctl_iflist sample_os 340 0%nat =
               (inr (concat sample_records), 1%nat)) by reflexivity.
  assert (H3 : (length sample_records <= 3)%nat) by (simpl; lia).
  assert (Ha : all_answered sample_os
                 (generic_indices (map (classify macos_layout) sample_records))
                 1%nat = true) by (vm_compute; reflexivity).
  assert (F1 : sysctl_size partly_failing_os 0%nat = (inr 340%nat, 0%nat))
    by (vm_compute; reflexivity).
  assert (F2 : sysctl_iflist partly_failing_os 340 0%nat =
               (inr (concat sample_records), 1%nat)) by reflexivity.
  assert (Fa : all_answered partly_failing_os
                 (generic_indices (map (classify macos_layout) sample_records))
                 1%nat = false) by (vm_compute; reflexivity).
  pose proof (proj2 (source_selection nat sample_os macos_layout 3 0%nat)
                sample_records 340%nat 0%nat 1%nat
                sample_records_well_formed H1 H2 H3) as (He & Hx & _).
  pose proof (proj2 (source_selection nat partly_failing_os macos_layout 3 0%nat)
                sample_records 340%nat 0%nat 1%nat
                sample_records_well_formed F1 F2 H3) as (_ & _ & Hf).
  split; [exact sample_records_well_formed|].
  split; [exact H1|]. split; [exact H2|]. split; [exact H3|].
  split; [exact He|]. split; [exact Ha|].
  split; [exact (Hx Ha)|].
  split; [exact F1|]. split; [exact F2|]. split; [exact Fa|].
  exact (Hf Fa).
Defined.

(** A failing secondary query in the first pass, and a failing primary
    query in a later one. *)
Lemma failed_query_is_fatal_witness :
  In (EvSysctl (IFMIB_IFDATA 4) false)
     (log_of (GetNetworkMetrics failing_secondary_os macos_layout 7 true 0%nat))
  /\ In (EvSysctl NET_RT_IFLIST2 false)
        (log_of (GetNetworkMetrics failing_primary_os macos_layout 7 true 2%nat))
  /\ outcome_of (GetNetworkMetrics failing_secondary_os macos_layout 7 true 0%nat)
     = Exited 1
  /\ stdout_of (log_of (loop_iteration failing_primary_os macos_layout 7 true
                          zero_metrics 2%nat)) = [].
Proof.
  assert (Hs : In (EvSysctl (IFMIB_IFDATA 4) false)
                 (log_of (GetNetworkMetrics failing_secondary_os macos_layout 7
                            true 0%nat)))
    by (vm_compute; auto).
  assert (Hp : In (EvSysctl NET_RT_IFLIST2 false)
                 (log_of (GetNetworkMetrics failing_primary_os macos_layout 7
                            true 2%nat)))
    by (vm_compute; auto).
  split; [exact Hs|]. split; [exact Hp|]. split.
  - exact (proj1 (failed_query_is_fatal nat failing_secondary_os macos_layout 7
                    true zero_metrics 0%nat (IFMIB_IFDATA 4) Hs)).
  - exact (proj1 (proj2 (proj2 (proj2
             (failed_query_is_fatal nat failing_primary_os macos_layout 7
                true zero_metrics 2%nat NET_RT_IFLIST2 Hp))))).
Defined.

(** The first iteration on the sample system prints 5000001100 input
    bytes, which is no multiple of 1024. *)
Lemma byte_counters_reported_unrounded_witness :
  GetNetworkMetrics sample_os macos_layout 3 true 0%nat =
  (Done (mkNetworkMetrics 5000001100 7000000200 12 23), 1%nat,
   primary_ok ++ [query_ok 4; query_ok 1])
  /\ skipn 2 (reported (log_of (loop_iteration sample_os macos_layout 3 true
                                  zero_metrics 0%nat))) =
     [(5000001100, 5000001100); (7000000200, 7000000200)].
Proof.
  assert (H : GetNetworkMetrics sample_os macos_layout 3 true 0%nat =
              (Done (mkNetworkMetrics 5000001100 7000000200 12 23), 1%nat,
               primary_ok ++ [query_ok 4; query_ok 1]))
    by (vm_compute; reflexivity).
  split; [exact H|].
  exact (byte_counters_reported_unrounded nat sample_os macos_layout 3 true
           zero_metrics _ 0%nat _ _ H).
Defined.

(** Two samples of ordinary growth. *)
Lemma ordinary_growth_is_silent_witness :
  wf_metrics steady_previous /\ wf_metrics steady_current /\
  ordinary_growth steady_previous steady_current /\
  map snd (reported (log_of (report steady_previous steady_current 0%nat))) =
  [2; 0; 5; 0].
Proof.
  assert (Hp : wf_metrics steady_previous)
    by (unfold wf_metrics, is_uint64, UINT64_MOD; simpl; lia).
  assert (Hc : wf_metrics steady_current)
    by (unfold wf_metrics, is_uint64, UINT64_MOD; simpl; lia).
  assert (Hg : ordinary_growth steady_previous steady_current)
    by (unfold ordinary_growth, grows; simpl; lia).
  split; [exact Hp|]. split; [exact Hc|]. split; [exact Hg|].
  exact (proj2 (proj2 (proj2 (ordinary_growth_is_silent nat steady_previous
                                steady_current 0%nat Hp Hc Hg)))).
Defined.

(** The three sample records: three executions of the body complete the
    scan, two do not. *)
Lemma parser_visits_each_record_in_order_witness :
  Forall (fun r => well_formed macos_layout r = true) sample_records /\
  scan_loop sample_os macos_layout 3 true (concat sample_records) 0 zero_metrics
    0%nat =
  (m <- aggregate_records sample_os true
          (map (classify macos_layout) sample_records) zero_metrics ;;
   ret (length (concat sample_records), m)) 0%nat
  /\ forall st,
       outcome_of (scan_loop sample_os macos_layout 2 true (concat sample_records)
                     0 zero_metrics 0%nat) <> Done st.
Proof.
  split; [exact sample_records_well_formed|]. split.
  - apply (proj1 (parser_visits_each_record_in_order nat sample_os macos_layout
                    true sample_records 3 zero_metrics 0%nat
                    sample_records_well_formed)).
    simpl. lia.
  - apply (proj1 (proj2 (parser_visits_each_record_in_order nat sample_os
                           macos_layout true sample_records 2 zero_metrics 0%nat
                           sample_records_well_formed))).
    simpl. lia.
Defined.

(** Swapping the first two sample records in the buffer. *)
Lemma aggregation_is_order_independent_sum_witness :
  Forall (fun r => well_formed macos_layout r = true) sample_records /\
  Permutation sample_records [addr_record; en0_record; lo0_record] /\
  (length sample_records <= 3)%nat /\
  outcome_of (scan_loop sample_os macos_layout 3 false
                (concat [addr_record; en0_record; lo0_record]) 0 zero_metrics
                0%nat) =
  Done (length (concat [addr_record; en0_record; lo0_record]),
        aggregate (embedded_counters (map (classify macos_layout) sample_records))).
Proof.
  assert (Hperm : Permutation sample_records [addr_record; en0_record; lo0_record])
    by apply perm_swap.
  assert (Hlen : (length sample_records <= 3)%nat) by (simpl; lia).
  split; [exact sample_records_well_formed|].
  split; [exact Hperm|]. split; [exact Hlen|].
  exact (proj2 (proj2 (proj2 (proj2 (aggregation_is_order_independent_sum nat
                                       sample_os macos_layout)))
                  sample_records [addr_record; en0_record; lo0_record] 3%nat
                  0%nat sample_records_well_formed Hperm Hlen)).
Defined.


(** * Further properties of [GetNetworkMetrics] and [main] *)

Section FurtherProperties.

Variable World : Type.
Variable os : OS World.
Variable L : Layout.

(** ** The accumulators stay within 64 bits *)

Lemma scan_body_wf (useIfmibData : bool) (buffer : list byte) (next : nat)
    (metrics : NetworkMetrics) (w w' : World) (st : nat * NetworkMetrics)
    (t : list event) :
  wf_metrics metrics ->
  scan_body os L useIfmibData buffer next metrics w = (Done st, w', t) ->
  wf_metrics (snd st).
Proof.
  intros Hwf H. unfold scan_body in H.
  apply bind_done_inv in H as (type & w1 & t1 & t2 & _ & H & _).
  apply bind_done_inv in H as (m' & w2 & t3 & t4 & Hm & H & _).
  apply bind_done_inv in H as (len & w3 & t5 & t6 & _ & H & _).
  injection H as <- _ _. simpl.
  destruct (type =? RTM_IFINFO2 L).
  - destruct useIfmibData.
    + apply bind_done_inv in Hm as (index & w4 & t7 & t8 & _ & Hm & _).
      apply bind_done_inv in Hm as (r & w5 & t9 & t10 & _ & Hm & _).
      destruct r as [errno|mibdata].
      * apply bind_done_inv in Hm as (u & w6 & t11 & t12 & _ & Hm & _).
        discriminate Hm.
      * injection Hm as <- _ _. apply accumulate_wf.
    + apply bind_done_inv in Hm as (ip & w4 & t7 & t8 & _ & Hm & _).
      apply bind_done_inv in Hm as (op & w5 & t9 & t10 & _ & Hm & _).
      apply bind_done_inv in Hm as (ib & w6 & t11 & t12 & _ & Hm & _).
      apply bind_done_inv in Hm as (ob & w7 & t13 & t14 & _ & Hm & _).
      injection Hm as <- _ _. apply accumulate_wf.
  - injection Hm as <- _ _. exact Hwf.
Qed.

Lemma scan_loop_wf (useIfmibData : bool) (buffer : list byte) (fuel : nat) :
  forall (next : nat) (metrics : NetworkMetrics) (w w' : World)
         (st : nat * NetworkMetrics) (t : list event),
    wf_metrics metrics ->
    scan_loop os L fuel useIfmibData buffer next metrics w = (Done st, w', t) ->
    wf_metrics (snd st).
Proof.
  induction fuel as [|fuel IH]; intros next metrics w w' st t Hwf H; simpl in H;
    destruct (next <? length buffer)%nat.
  - discriminate H.
  - injection H as <- _ _. exact Hwf.
  - apply bind_done_inv in H as (st1 & w1 & t1 & t2 & Hb & H & _).
    eapply IH; [|exact H]. eapply scan_body_wf; eauto.
  - injection H as <- _ _. exact Hwf.
Qed.

Lemma GetNetworkMetrics_done_inv (fuel : nat) (useIfmibData : bool)
    (w w' : World) (m : NetworkMetrics) (t : list event) :
  GetNetworkMetrics os L fuel useIfmibData w = (Done m, w', t) ->
  exists len w1 buffer w2 n t',
    sysctl_size os w = (inr len, w1) /\
    sysctl_iflist os len w1 = (inr buffer, w2) /\
    scan_loop os L fuel useIfmibData buffer 0 zero_metrics w2 = (Done (n, m), w', t') /\
    t = primary_ok ++ t'.
Proof.
  intros H. unfold GetNetworkMetrics in H.
  apply bind_done_inv in H as (r & w1 & t1 & t2 & Hc & H & ->).
  unfold call_sysctl_size in Hc.
  destruct (sysctl_size os w) as [r0 w0] eqn:E1. injection Hc as <- <- <-.
  destruct r0 as [errno|len].
  { apply bind_done_inv in H as (u & w6 & t11 & t12 & _ & H & _). discriminate H. }
  apply bind_done_inv in H as (r' & w2 & t3 & t4 & Hc & H & ->).
  unfold call_sysctl_iflist in Hc.
  destruct (sysctl_iflist os len w0) as [r1 w3] eqn:E2. injection Hc as <- <- <-.
  destruct r1 as [errno|buffer].
  { apply bind_done_inv in H as (u & w6 & t11 & t12 & _ & H & _). discriminate H. }
  apply bind_done_inv in H as ([n m'] & w4 & t5 & t6 & Hs & H & ->).
  injection H as <- <- <-.
  exists len, w0, buffer, w3, n, t5. repeat split; trivial.
  simpl. now rewrite app_nil_r.
Qed.

Lemma loop_iteration_done_inv (fuel : nat) (useIfmibData : bool)
    (lastMetrics currentMetrics : NetworkMetrics) (w w' : World) (t : list event) :
  loop_iteration os L fuel useIfmibData lastMetrics w = (Done currentMetrics, w', t) ->
  exists t0,
    GetNetworkMetrics os L fuel useIfmibData w = (Done currentMetrics, w', t0) /\
    t = EvSleep 1 :: t0 ++ log_of (report lastMetrics currentMetrics w').
Proof.
  intros H. unfold loop_iteration, bind, sleep, emit in H.
  destruct (GetNetworkMetrics os L fuel useIfmibData w)
    as [[[cur|s| |] w1] t0] eqn:E; try discriminate H.
  rewrite report_run in H. unfold ret in H.
  injection H as H1 H2 H3. subst cur w1 t.
  exists t0. split; [reflexivity|].
  rewrite report_run. unfold log_of. simpl. now rewrite app_nil_r.
Qed.

(** X1: every sample a pass returns, and so every sample the loop holds,
    has its four counters within [0, 2^64). *)
Theorem samples_stay_within_64_bits (fuel : nat) (useIfmibData : bool) :
  (forall w w' m t,
      GetNetworkMetrics os L fuel useIfmibData w = (Done m, w', t) ->
      wf_metrics m)
  /\ (forall iterations lastMetrics w w' m t,
        wf_metrics lastMetrics ->
        main_loop os L iterations fuel useIfmibData lastMetrics w = (Done m, w', t) ->
        wf_metrics m)
  /\ (forall iterations w w' m t,
        main os L iterations fuel w = (Done m, w', t) -> wf_metrics m).
Proof.
  assert (Hpass : forall use w w' m t,
             GetNetworkMetrics os L fuel use w = (Done m, w', t) -> wf_metrics m).
  { intros use w w' m t H.
    apply GetNetworkMetrics_done_inv in H
      as (len & w1 & buffer & w2 & n & t' & _ & _ & Hs & _).
    exact (scan_loop_wf _ _ _ _ _ _ _ _ _ zero_metrics_wf Hs). }
  assert (Hloop : forall use iterations lastMetrics w w' m t,
             wf_metrics lastMetrics ->
             main_loop os L iterations fuel use lastMetrics w = (Done m, w', t) ->
             wf_metrics m).
  { intros use. induction iterations as [|n IH]; intros lastMetrics w w' m t Hwf H.
    - injection H as <- _ _. exact Hwf.
    - simpl in H. apply bind_done_inv in H as (cur & w1 & t1 & t2 & Hi & H & _).
      apply loop_iteration_done_inv in Hi as (t0 & Hg & _).
      eapply IH; [|exact H]. eapply Hpass; eauto. }
  split; [apply Hpass|]. split; [apply Hloop|].
  intros iterations w w' m t H. unfold main in H.
  apply bind_done_inv in H as (lastMetrics & w1 & t1 & t2 & Hg & H & _).
  eapply Hloop; [|exact H]. eapply Hpass; eauto.
Qed.

(** ** The exits of the whole program *)

Lemma ok_sysctl_is_calm (t : list event) :
  forallb is_ok_sysctl t = true -> forallb is_calm t = true.
Proof.
  induction t as [|e t IH]; simpl; [trivial|].
  intros H. apply andb_prop in H as [He Ht]. rewrite (IH Ht), andb_true_r.
  destruct e as [name [|]| | |]; trivial; discriminate.
Qed.

Lemma orderly_of_tidy {A : Type} (r : outcome A * World * list event) :
  tidy r -> orderly r.
Proof.
  unfold tidy, orderly. destruct (outcome_of r) as [a|s| |];
    try apply ok_sysctl_is_calm.
  intros (Hs & t & name & errno & Ht & Hok). split; [exact Hs|].
  exists t, name, errno. split; [exact Ht|]. now apply ok_sysctl_is_calm.
Qed.

Lemma orderly_bind {A B : Type} (m : M World A) (f : A -> M World B) (w : World) :
  orderly (m w) -> (forall a w', orderly (f a w')) -> orderly (bind m f w).
Proof.
  unfold bind. intros Hm Hf.
  destruct (m w) as [[[a|s| |] w1] t1]; try exact Hm.
  specialize (Hf a w1). destruct (f a w1) as [[o w2] t2].
  unfold orderly, outcome_of, log_of in *. simpl in *.
  destruct o as [b|s| |]; try (rewrite forallb_app, Hm, Hf; reflexivity).
  destruct Hf as (Hs & t & name & errno & Ht & Hok). split; [exact Hs|].
  exists (t1 ++ t), name, errno. split.
  - now rewrite Ht, app_assoc.
  - now rewrite forallb_app, Hm, Hok.
Qed.

Lemma orderly_report (lastMetrics currentMetrics : NetworkMetrics) (w : World) :
  orderly (report lastMetrics currentMetrics w).
Proof.
  rewrite report_run. unfold orderly, outcome_of, log_of. simpl fst. simpl snd.
  destruct (totalInputBytes currentMetrics <? totalInputBytes lastMetrics);
    destruct (totalOutputBytes currentMetrics <? totalOutputBytes lastMetrics);
    reflexivity.
Qed.

Lemma orderly_loop_iteration (fuel : nat) (useIfmibData : bool)
    (lastMetrics : NetworkMetrics) (w : World) :
  orderly (loop_iteration os L fuel useIfmibData lastMetrics w).
Proof.
  unfold loop_iteration. apply orderly_bind; [reflexivity|]. intros _ w1.
  apply orderly_bind; [apply orderly_of_tidy, tidy_GetNetworkMetrics|].
  intros cur w2. apply orderly_bind; [apply orderly_report|]. reflexivity.
Qed.

Lemma orderly_main_loop (fuel : nat) (useIfmibData : bool) (iterations : nat) :
  forall (lastMetrics : NetworkMetrics) (w : World),
    orderly (main_loop os L iterations fuel useIfmibData lastMetrics w).
Proof.
  induction iterations as [|n IH]; intros lastMetrics w; simpl; [reflexivity|].
  apply orderly_bind; [apply orderly_loop_iteration|]. intros cur w1. apply IH.
Qed.

(** X2: whatever the number of iterations, the program exits only with
    status 1, and then the last two events of its log are the failed sysctl
    call and its diagnostic, with no failed call and no line on stderr
    before them; a run that has not exited has no failed sysctl call and no
    line on stderr at all. *)
Theorem program_exits_only_after_failed_sysctl (iterations fuel : nat) (w : World) :
  (forall status,
      outcome_of (main os L iterations fuel w) = Exited status ->
      status = 1 /\
      exists t name errno,
        log_of (main os L iterations fuel w) =
        t ++ [EvSysctl name false; EvStderr "sysctl: %s\n" errno] /\
        forallb is_calm t = true)
  /\ ((forall status, outcome_of (main os L iterations fuel w) <> Exited status) ->
      forallb is_calm (log_of (main os L iterations fuel w)) = true).
Proof.
  assert (H : orderly (main os L iterations fuel w)).
  { unfold main. apply orderly_bind; [apply orderly_of_tidy, tidy_GetNetworkMetrics|].
    intros lastMetrics w1. apply orderly_main_loop. }
  unfold orderly in H. split.
  - intros status Hs. rewrite Hs in H. exact H.
  - intros Hne. destruct (outcome_of (main os L iterations fuel w)) as [m|s| |];
      trivial. now elim (Hne s).
Qed.

(** ** The wrapped delta and the printed difference *)

Lemma sub64_wrapped (a b : Z) :
  is_uint64 a -> is_uint64 b -> a < b -> sub64 a b = 2 ^ 64 - (b - a).
Proof.
  unfold sub64, wrap64, is_uint64, UINT64_MOD. intros Ha Hb Hlt.
  symmetry. apply (Z.mod_unique (a - b) (2 ^ 64) (-1)); [left|]; lia.
Qed.

(** X3: when the byte counter of a direction went down, the delta printed
    for that direction is 2^64 minus the difference printed in its
    warning. *)
Theorem wrapped_delta_complements_difference
    (lastMetrics currentMetrics : NetworkMetrics) (w : World) :
  wf_metrics lastMetrics ->
  wf_metrics currentMetrics ->
  (totalInputBytes currentMetrics < totalInputBytes lastMetrics ->
   nth 2 (reported (log_of (report lastMetrics currentMetrics w))) (0, 0) =
   (totalInputBytes currentMetrics,
    2 ^ 64 - (totalInputBytes lastMetrics - totalInputBytes currentMetrics))
   /\ In (EvStdout "Before: %llu, After: %llu, Difference: %llu\n"
            [totalInputBytes lastMetrics; totalInputBytes currentMetrics;
             totalInputBytes lastMetrics - totalInputBytes currentMetrics])
         (log_of (report lastMetrics currentMetrics w)))
  /\ (totalOutputBytes currentMetrics < totalOutputBytes lastMetrics ->
      nth 3 (reported (log_of (report lastMetrics currentMetrics w))) (0, 0) =
      (totalOutputBytes currentMetrics,
       2 ^ 64 - (totalOutputBytes lastMetrics - totalOutputBytes currentMetrics))
      /\ In (EvStdout "Before: %llu, After: %llu, Difference: %llu\n"
               [totalOutputBytes lastMetrics; totalOutputBytes currentMetrics;
                totalOutputBytes lastMetrics - totalOutputBytes currentMetrics])
            (log_of (report lastMetrics currentMetrics w))).
Proof.
  intros (Hli & Hlo & _ & _) (Hci & Hco & _ & _). split; intros Hlt; split.
  - rewrite reported_report. simpl nth. now rewrite sub64_wrapped.
  - rewrite report_run. unfold log_of. simpl snd.
    rewrite (proj2 (Z.ltb_lt _ _) Hlt).
    rewrite (sub64_no_wrap (totalInputBytes lastMetrics)) by (trivial; lia).
    do 6 right. right. left. reflexivity.
  - rewrite reported_report. simpl nth. now rewrite sub64_wrapped.
  - rewrite report_run. unfold log_of. simpl snd.
    rewrite (proj2 (Z.ltb_lt _ _) Hlt).
    rewrite (sub64_no_wrap (totalOutputBytes lastMetrics)) by (trivial; lia).
    do 6 right. apply in_or_app. right. simpl. right. left. reflexivity.
Qed.

(** ** How far the cursor goes *)

Lemma load_le_S (b : list byte) (off n : nat) :
  load_le b off (S n) =
  match byte_at b off, load_le b (S off) n with
  | Some lo, Some hi => Some (lo + 256 * hi)
  | _, _ => None
  end.
Proof. reflexivity. Qed.

Lemma byte_at_bound (b : list byte) (off : nat) (v : Z) :
  byte_at b off = Some v -> v <= 255.
Proof.
  unfold byte_at. destruct (nth_error b off) as [x|]; [|discriminate].
  simpl. intros H. injection H as H. subst v.
  pose proof (Byte.to_N_bounded x). lia.
Qed.

Lemma byte_at_outside (b : list byte) (off : nat) :
  (length b <= off)%nat -> byte_at b off = None.
Proof.
  intros H. unfold byte_at. now rewrite (proj2 (nth_error_None b off) H).
Qed.

Lemma ifm_msglen_bound (buffer : list byte) (next : nat) (len : Z) :
  ifm_msglen L buffer next = Some len -> 0 <= len <= USHRT_MAX.
Proof.
  intros H. split; [eapply load_le_nonneg; exact H|].
  unfold ifm_msglen in H. rewrite load_le_S in H.
  destruct (byte_at buffer (next + ifm_msglen_off L)) as [lo|] eqn:E0;
    [|discriminate].
  rewrite load_le_S in H.
  destruct (byte_at buffer (S (next + ifm_msglen_off L))) as [hi|] eqn:E1;
    [|discriminate].
  change (load_le buffer (S (S (next + ifm_msglen_off L))) 0) with (Some 0) in H.
  assert (Hv : len = lo + 256 * (hi + 256 * 0)) by congruence.
  pose proof (byte_at_nonneg _ _ _ E0). pose proof (byte_at_nonneg _ _ _ E1).
  apply byte_at_bound in E0, E1. unfold USHRT_MAX. lia.
Qed.

Lemma scan_loop_cursor (useIfmibData : bool) (buffer : list byte) (fuel : nat) :
  forall (next n : nat) (metrics m : NetworkMetrics) (w w' : World) (t : list event),
    scan_loop os L fuel useIfmibData buffer next metrics w = (Done (n, m), w', t) ->
    (length buffer <= n)%nat /\ (next <= n)%nat /\
    (n = next \/ Z.of_nat n <= Z.of_nat (length buffer) + USHRT_MAX - 1).
Proof.
  induction fuel as [|fuel IH]; intros next n metrics m w w' t H; simpl in H;
    destruct (next <? length buffer)%nat eqn:Hlt.
  - discriminate H.
  - apply Nat.ltb_ge in Hlt. injection H as <- _ _ _. lia.
  - apply Nat.ltb_lt in Hlt.
    apply bind_done_inv in H as (st & w1 & t1 & t2 & Hb & H & _).
    destruct (scan_body_done _ _ _ _ _ _ _ _ _ _ _ Hb) as (len & Hlen & _ & Hst).
    apply ifm_msglen_bound in Hlen.
    apply IH in H as (H1 & H2 & H3). rewrite Hst in *.
    split; [exact H1|]. split; [lia|]. right. destruct H3 as [->|H3]; lia.
  - apply Nat.ltb_ge in Hlt. injection H as <- _ _ _. lia.
Qed.

(** X4: when the record loop completes, the cursor has reached the end of
    the buffer and lies at most [USHRT_MAX - 1] bytes beyond it. *)
Theorem cursor_overshoot_is_bounded (fuel : nat) (useIfmibData : bool)
    (buffer : list byte) (metrics m : NetworkMetrics) (w w' : World) (n : nat)
    (t : list event) :
  scan_loop os L fuel useIfmibData buffer 0 metrics w = (Done (n, m), w', t) ->
  (length buffer <= n)%nat /\
  Z.of_nat n <= Z.of_nat (length buffer) + USHRT_MAX - 1.
Proof.
  intros H. apply scan_loop_cursor in H as (H1 & _ & [->|H3]).
  - split; [exact H1|]. unfold USHRT_MAX. lia.
  - now split.
Qed.

(** ** Well-formed records before anything else *)

Lemma scan_loop_prefix (useIfmibData : bool) (rs : list (list byte))
    (rest : list byte) (fuel : nat) :
  Forall (fun r => well_formed L r = true) rs ->
  forall (pre : list byte) (metrics : NetworkMetrics) (w : World),
    scan_loop os L (length rs + fuel) useIfmibData (pre ++ concat rs ++ rest)
      (length pre) metrics w =
    (m <- aggregate_records os useIfmibData (map (classify L) rs) metrics ;;
     scan_loop os L fuel useIfmibData (pre ++ concat rs ++ rest)
       (length (pre ++ concat rs)) m) w.
Proof.
  induction 1 as [|r rs Hr Hrs IH]; intros pre metrics w.
  - simpl. rewrite bind_ret_l, app_nil_r. reflexivity.
  - destruct (well_formed_inv L r Hr) as (len & rec & _ & _ & _ & Hpos).
    simpl concat. simpl length. simpl plus. simpl scan_loop.
    assert (Hlt : (length pre <? length (pre ++ (r ++ concat rs) ++ rest))%nat = true).
    { apply Nat.ltb_lt. rewrite !length_app. lia. }
    rewrite Hlt. rewrite <- (app_assoc r).
    rewrite (bind_congr_l _ _ _ _ w (scan_body_well_formed _ _ _ _ _ _ _ _ _ Hr)).
    simpl map. simpl aggregate_records.
    rewrite !bind_assoc. apply bind_ext. intros c w1.
    rewrite bind_ret_l. simpl fst. simpl snd.
    replace (length pre + length r)%nat with (length (pre ++ r))
      by now rewrite length_app.
    replace (pre ++ r ++ concat rs ++ rest) with ((pre ++ r) ++ concat rs ++ rest)
      by now rewrite <- app_assoc.
    replace (pre ++ r ++ concat rs) with ((pre ++ r) ++ concat rs)
      by now rewrite <- app_assoc.
    apply IH.
Qed.

(** X5: whatever follows them in the buffer, the well-formed records at its
    start are processed first, in order, exactly as on their own; the loop
    then goes on from the first byte after them with the fuel that is
    left. *)
Theorem well_formed_prefix_is_processed_first (useIfmibData : bool)
    (rs : list (list byte)) (rest : list byte) (fuel : nat)
    (metrics : NetworkMetrics) (w : World) :
  Forall (fun r => well_formed L r = true) rs ->
  scan_loop os L (length rs + fuel) useIfmibData (concat rs ++ rest) 0 metrics w =
  (m <- aggregate_records os useIfmibData (map (classify L) rs) metrics ;;
   scan_loop os L fuel useIfmibData (concat rs ++ rest) (length (concat rs)) m) w.
Proof.
  intros Hwf. exact (scan_loop_prefix useIfmibData rs rest fuel Hwf [] metrics w).
Qed.


(** ** Buffers without interface records *)

Lemma aggregate_records_other (useIfmibData : bool) (recs : list InterfaceRecord) :
  Forall (fun rec => is_generic rec = false) recs ->
  forall (metrics : NetworkMetrics) (w : World),
    aggregate_records os useIfmibData recs metrics w = (Done metrics, w, []).
Proof.
  induction 1 as [|rec recs Hrec _ IH]; intros metrics w; simpl; [reflexivity|].
  destruct rec as [index d|]; [discriminate|]. simpl.
  rewrite bind_ret_l. apply IH.
Qed.

(** X7: when the interface list holds no [RTM_IFINFO2] record (an empty
    list included), the pass returns the zero sample, whichever the source,
    and makes no secondary query. *)
Theorem no_interface_records_no_traffic (fuel : nat) (useIfmibData : bool)
    (rs : list (list byte)) (w w1 w2 : World) (len : nat) :
  Forall (fun r => well_formed L r = true) rs ->
  Forall (fun r => ifm_type L r 0 <> Some (RTM_IFINFO2 L)) rs ->
  sysctl_size os w = (inr len, w1) ->
  sysctl_iflist os len w1 = (inr (concat rs), w2) ->
  (length rs <= fuel)%nat ->
  GetNetworkMetrics os L fuel useIfmibData w = (Done zero_metrics, w2, primary_ok).
Proof.
  intros Hwf Htag H1 H2 Hfuel.
  rewrite (GetNetworkMetrics_delivered _ os L fuel useIfmibData _ _ _ _ _ H1 H2).
  pose proof (scan_loop_concat _ os L useIfmibData rs Hwf fuel [] zero_metrics w2
                Hfuel) as Hs.
  simpl in Hs. rewrite (bind_congr_l _ _ _ _ w2 Hs), bind_assoc.
  unfold bind at 1. rewrite aggregate_records_other.
  - rewrite bind_ret_l. reflexivity.
  - apply Forall_map. rewrite Forall_forall in *. intros r Hr.
    destruct (is_generic (classify L r)) eqn:E; [|reflexivity].
    apply (classify_generic_iff L r (Hwf r Hr)) in E. now elim (Htag r Hr).
Qed.

(** ** A secondary query that fails *)

Lemma aggregate_records_failure (recs : list InterfaceRecord) :
  forall (metrics : NetworkMetrics) (w w' : World) (status : Z) (t : list event),
    aggregate_records os true recs metrics w = (Exited status, w', t) ->
    exists asked index later errno,
      generic_indices recs = asked ++ index :: later /\
      t = map query_ok asked ++
          [EvSysctl (IFMIB_IFDATA index) false; EvStderr "sysctl: %s\n" errno].
Proof.
  induction recs as [|[index d|] recs IH]; intros metrics w w' status t; simpl.
  - discriminate.
  - unfold bind, call_sysctl_ifdata, ret, fprintf_stderr, emit, exit.
    destruct (sysctl_ifdata os index w) as [[errno|mibdata] w1]; simpl.
    + intros H. injection H as _ _ <-.
      now exists [], index, (generic_indices recs), errno.
    + destruct (aggregate_records os true recs
                  (accumulate metrics (ifmd_data mibdata)) w1)
        as [[o w2] t2] eqn:E.
      intros H. injection H as -> _ <-.
      destruct (IH _ _ _ _ _ E) as (asked & i & later & errno & Hi & ->).
      exists (index :: asked), i, later, errno. split; [now rewrite Hi|reflexivity].
  - rewrite bind_ret_l. apply IH.
Qed.

(** X8: when a pass over well-formed records exits on a failed secondary
    query, it has asked, successfully and in order, for exactly the
    [GenericInfo] records before the failing one, and for none after it. *)
Theorem failed_secondary_query_stops_the_pass (fuel : nat)
    (rs : list (list byte)) (w w1 w2 : World) (len : nat) (status : Z) :
  Forall (fun r => well_formed L r = true) rs ->
  sysctl_size os w = (inr len, w1) ->
  sysctl_iflist os len w1 = (inr (concat rs), w2) ->
  (length rs <= fuel)%nat ->
  outcome_of (GetNetworkMetrics os L fuel true w) = Exited status ->
  exists asked index later errno,
    generic_indices (map (classify L) rs) = asked ++ index :: later /\
    log_of (GetNetworkMetrics os L fuel true w) =
    primary_ok ++ map query_ok asked ++
    [EvSysctl (IFMIB_IFDATA index) false; EvStderr "sysctl: %s\n" errno].
Proof.
  intros Hwf H1 H2 Hfuel.
  rewrite (GetNetworkMetrics_records _ os L fuel true rs w w1 w2 len Hwf H1 H2 Hfuel).
  destruct (aggregate_records os true (map (classify L) rs) zero_metrics w2)
    as [[o w3] t3] eqn:E.
  unfold outcome_of, log_of. simpl. intros ->.
  destruct (aggregate_records_failure _ _ _ _ _ _ E)
    as (asked & index & later & errno & Hi & ->).
  now exists asked, index, later, errno.
Qed.

(** ** A run of the sample loop *)

Lemma last_cons {A : Type} (l : list A) :
  forall x d : A, last (x :: l) d = last l x.
Proof.
  induction l as [|y l IH]; intros x d; [reflexivity|].
  change (last (x :: y :: l) d) with (last (y :: l) d).
  now rewrite !IH.
Qed.

Lemma reported_app (t1 t2 : list event) :
  reported (t1 ++ t2) = reported t1 ++ reported t2.
Proof.
  induction t1 as [|e t1 IH]; [reflexivity|].
  destruct e as [name ok|fmt errno|fmt args|s]; simpl; trivial.
  destruct args as [|a [|b [|c args]]]; simpl; trivial. now rewrite IH.
Qed.

Lemma sleeps_app (t1 t2 : list event) :
  sleeps (t1 ++ t2) = sleeps t1 ++ sleeps t2.
Proof.
  induction t1 as [|e t1 IH]; [reflexivity|].
  destruct e; simpl; trivial. now rewrite IH.
Qed.

Lemma ok_sysctl_no_sleep (t : list event) :
  forallb is_ok_sysctl t = true -> sleeps t = [].
Proof.
  induction t as [|e t IH]; simpl; [trivial|].
  intros H. apply andb_prop in H as [He Ht].
  destruct e; try discriminate. now apply IH.
Qed.

Lemma sleeps_report (lastMetrics currentMetrics : NetworkMetrics) (w : World) :
  sleeps (log_of (report lastMetrics currentMetrics w)) = [].
Proof.
  rewrite report_run. unfold log_of. simpl snd.
  destruct (totalInputBytes currentMetrics <? totalInputBytes lastMetrics);
    destruct (totalOutputBytes currentMetrics <? totalOutputBytes lastMetrics);
    reflexivity.
Qed.

(** What one completed iteration leaves in the log. *)
Lemma loop_iteration_log (fuel : nat) (useIfmibData : bool)
    (lastMetrics currentMetrics : NetworkMetrics) (w w' : World) (t : list event) :
  loop_iteration os L fuel useIfmibData lastMetrics w = (Done currentMetrics, w', t) ->
  reported t = report_row lastMetrics currentMetrics /\ sleeps t = [1].
Proof.
  intros H. apply loop_iteration_done_inv in H as (t0 & Hg & ->).
  pose proof (tidy_GetNetworkMetrics _ os L fuel useIfmibData w) as Ht.
  rewrite Hg in Ht. unfold tidy, outcome_of, log_of in Ht. simpl in Ht.
  split.
  - simpl reported. rewrite (ok_sysctl_not_reported _ _ Ht).
    apply reported_report.
  - simpl sleeps. rewrite sleeps_app, (ok_sysctl_no_sleep _ Ht), sleeps_report.
    reflexivity.
Qed.

Lemma main_loop_run (fuel : nat) (useIfmibData : bool) (iterations : nat) :
  forall (lastMetrics final : NetworkMetrics) (w w' : World) (t : list event),
    main_loop os L iterations fuel useIfmibData lastMetrics w = (Done final, w', t) ->
    sleeps t = repeat 1 iterations /\
    exists samples,
      length samples = iterations /\
      reported t = report_rows lastMetrics samples /\
      last samples lastMetrics = final.
Proof.
  induction iterations as [|n IH]; intros lastMetrics final w w' t H.
  - injection H as <- _ <-. split; [reflexivity|]. now exists [].
  - simpl in H. apply bind_done_inv in H as (cur & w1 & t1 & t2 & Hi & H & ->).
    apply loop_iteration_log in Hi as (Hr & Hs).
    apply IH in H as (Hs2 & samples & Hlen & Hrows & Hlast).
    split.
    + rewrite sleeps_app, Hs, Hs2. reflexivity.
    + exists (cur :: samples). split; [simpl; now rewrite Hlen|]. split.
      * rewrite reported_app, Hr, Hrows. reflexivity.
      * rewrite <- Hlast. apply last_cons.
Qed.

(** X9: a run of [iterations] completed iterations sleeps one second
    exactly [iterations] times and reports, for a sequence of that many
    samples, each sample against the one before it, starting from the
    sample the loop was entered with; the last of them is the sample the
    loop holds at the end. *)
Theorem each_iteration_reports_against_the_previous_sample
    (fuel : nat) (useIfmibData : bool) (iterations : nat)
    (lastMetrics final : NetworkMetrics) (w w' : World) (t : list event) :
  main_loop os L iterations fuel useIfmibData lastMetrics w = (Done final, w', t) ->
  sleeps t = repeat 1 iterations /\
  exists samples,
    length samples = iterations /\
    reported t = report_rows lastMetrics samples /\
    last samples lastMetrics = final.
Proof.
  apply main_loop_run.
Qed.

(** X11: the program takes its first sample with the extended source
    before any sleep and prints nothing for it; the reports of a run of
    completed iterations start from that sample. *)
Theorem first_sample_is_the_baseline (iterations fuel : nat)
    (final : NetworkMetrics) (w w' : World) (t : list event) :
  main os L iterations fuel w = (Done final, w', t) ->
  exists first w1 t0 t1 samples,
    GetNetworkMetrics os L fuel true w = (Done first, w1, t0) /\
    t = t0 ++ t1 /\
    stdout_of t0 = [] /\ sleeps t0 = [] /\
    length samples = iterations /\
    reported t = report_rows first samples /\
    last samples first = final /\
    sleeps t = repeat 1 iterations.
Proof.
  intros H. unfold main in H.
  apply bind_done_inv in H as (first & w1 & t0 & t1 & Hg & H & ->).
  pose proof (tidy_GetNetworkMetrics _ os L fuel true w) as Ht.
  rewrite Hg in Ht. unfold tidy, outcome_of, log_of in Ht. simpl in Ht.
  apply main_loop_run in H as (Hs & samples & Hlen & Hrows & Hlast).
  exists first, w1, t0, t1, samples.
  split; [exact Hg|]. split; [reflexivity|].
  split; [now apply ok_sysctl_not_stdout|].
  split; [now apply ok_sysctl_no_sleep|].
  split; [exact Hlen|].
  split; [now rewrite (ok_sysctl_not_reported _ _ Ht)|].
  split; [exact Hlast|].
  now rewrite sleeps_app, (ok_sysctl_no_sleep _ Ht).
Qed.

Lemma wrap64_add_sub64 (a b c s : Z) :
  wrap64 s = sub64 c b -> wrap64 (sub64 b a + s) = sub64 c a.
Proof.
  unfold sub64, wrap64. intros H.
  rewrite Zplus_mod_idemp_l, <- Zplus_mod_idemp_r, H, Zplus_mod_idemp_r.
  f_equal. lia.
Qed.

Lemma column_report_rows (k : nat) (samples : list NetworkMetrics) :
  (k < 4)%nat ->
  forall previous : NetworkMetrics,
    wrap64 (sum_Z (column k (report_rows previous samples))) =
    sub64 (field k (last samples previous)) (field k previous).
Proof.
  intros Hk. induction samples as [|cur samples IH]; intros previous.
  - simpl. unfold sub64. now rewrite Z.sub_diag.
  - rewrite last_cons.
    change (report_rows previous (cur :: samples))
      with (report_row previous cur ++ report_rows cur samples).
    unfold report_row. simpl app. cbn [column]. cbn [sum_Z fold_right].
    destruct k as [|[|[|[|k]]]]; try lia; cbn [nth snd field];
      apply wrap64_add_sub64, IH.
Qed.

(** X10: over any run of completed iterations the deltas reported for one
    counter add up, modulo 2^64, to the change of that counter between the
    sample the loop was entered with and the sample it holds at the end. *)
Theorem reported_deltas_add_up (fuel : nat) (useIfmibData : bool)
    (iterations k : nat) (lastMetrics final : NetworkMetrics) (w w' : World)
    (t : list event) :
  main_loop os L iterations fuel useIfmibData lastMetrics w = (Done final, w', t) ->
  (k < 4)%nat ->
  wrap64 (sum_Z (column k (reported t))) =
  sub64 (field k final) (field k lastMetrics).
Proof.
  intros H Hk.
  apply main_loop_run in H as (_ & samples & _ & -> & <-).
  now apply column_report_rows.
Qed.

End FurtherProperties.

(** * The further properties at work on concrete inputs *)

Lemma address_records_well_formed :
  Forall (fun r => well_formed macos_layout r = true) address_records.
Proof.
  repeat (constructor; [vm_compute; reflexivity|]). constructor.
Qed.

(** The first pass on the sample system returns counters within 64 bits. *)
Lemma samples_stay_within_64_bits_witness :
  GetNetworkMetrics sample_os macos_layout 3 true 0%nat =
  (Done (mkNetworkMetrics 5000001100 7000000200 12 23), 1%nat,
   primary_ok ++ [query_ok 4; query_ok 1])
  /\ wf_metrics (mkNetworkMetrics 5000001100 7000000200 12 23).
Proof.
  assert (H : GetNetworkMetrics sample_os macos_layout 3 true 0%nat =
              (Done (mkNetworkMetrics 5000001100 7000000200 12 23), 1%nat,
               primary_ok ++ [query_ok 4; query_ok 1]))
    by (vm_compute; reflexivity).
  split; [exact H|].
  exact (proj1 (samples_stay_within_64_bits nat sample_os macos_layout 3 true)
           0%nat 1%nat _ _ H).
Defined.

(** The primary query fails in the second iteration: exit status 1. *)
Lemma program_exits_only_after_failed_sysctl_witness :
  outcome_of (main failing_primary_os macos_layout 3 3 0%nat) = Exited 1
  /\ exists t name errno,
       log_of (main failing_primary_os macos_layout 3 3 0%nat) =
       t ++ [EvSysctl name false; EvStderr "sysctl: %s\n" errno] /\
       forallb is_calm t = true.
Proof.
  assert (H : outcome_of (main failing_primary_os macos_layout 3 3 0%nat) = Exited 1)
    by (vm_compute; reflexivity).
  split; [exact H|].
  exact (proj2 (proj1 (program_exits_only_after_failed_sysctl nat
                         failing_primary_os macos_layout 3 3 0%nat) 1 H)).
Defined.

(** The input counter wrapped from 2^64-5 to 3: delta 8, difference
    2^64-8. *)
Lemma wrapped_delta_complements_difference_witness :
  wf_metrics wrapped_previous /\ wf_metrics wrapped_current /\
  totalInputBytes wrapped_current < totalInputBytes wrapped_previous /\
  nth 2 (reported (log_of (report wrapped_previous wrapped_current 0%nat))) (0, 0)
  = (3, 8).
Proof.
  assert (Hp : wf_metrics wrapped_previous)
    by (unfold wf_metrics, is_uint64, UINT64_MOD; simpl; lia).
  assert (Hc : wf_metrics wrapped_current)
    by (unfold wf_metrics, is_uint64, UINT64_MOD; simpl; lia).
  assert (Hlt : totalInputBytes wrapped_current < totalInputBytes wrapped_previous)
    by (simpl; lia).
  split; [exact Hp|]. split; [exact Hc|]. split; [exact Hlt|].
  exact (proj1 (proj1 (wrapped_delta_complements_difference nat wrapped_previous
                         wrapped_current 0%nat Hp Hc) Hlt)).
Defined.

(** On [overrun_buffer], 36 bytes long, the cursor ends at 220. *)
Lemma cursor_overshoot_is_bounded_witness :
  scan_loop sample_os macos_layout 2 false overrun_buffer 0 zero_metrics 0%nat =
  (Done (220%nat, zero_metrics), 0%nat, [])
  /\ (length overrun_buffer <= 220)%nat
  /\ Z.of_nat 220 <= Z.of_nat (length overrun_buffer) + USHRT_MAX - 1.
Proof.
  assert (H : scan_loop sample_os macos_layout 2 false overrun_buffer 0
                zero_metrics 0%nat = (Done (220%nat, zero_metrics), 0%nat, []))
    by (vm_compute; reflexivity).
  split; [exact H|].
  exact (cursor_overshoot_is_bounded nat sample_os macos_layout 2 false
           overrun_buffer zero_metrics zero_metrics 0%nat 0%nat 220%nat [] H).
Defined.

(** Two sample records followed by the record of length zero. *)
Lemma well_formed_prefix_is_processed_first_witness :
  Forall (fun r => well_formed macos_layout r = true) [en0_record; addr_record]
  /\ scan_loop sample_os macos_layout (2 + 4) true
       (concat [en0_record; addr_record] ++ zero_length_record) 0 zero_metrics
       0%nat =
     (m <- aggregate_records sample_os true
             (map (classify macos_layout) [en0_record; addr_record]) zero_metrics ;;
      scan_loop sample_os macos_layout 4 true
        (concat [en0_record; addr_record] ++ zero_length_record)
        (length (concat [en0_record; addr_record])) m) 0%nat.
Proof.
  assert (H : Forall (fun r => well_formed macos_layout r = true)
                [en0_record; addr_record])
    by (repeat (constructor; [vm_compute; reflexivity|]); constructor).
  split; [exact H|].
  exact (well_formed_prefix_is_processed_first nat sample_os macos_layout true
           [en0_record; addr_record] zero_length_record 4 zero_metrics 0%nat H).
Defined.


(** An interface list of two address records. *)
Lemma no_interface_records_no_traffic_witness :
  Forall (fun r => well_formed macos_layout r = true) address_records
  /\ Forall (fun r => ifm_type macos_layout r 0 <> Some (RTM_IFINFO2 macos_layout))
       address_records
  /\ sysctl_size addresses_only_os 0%nat = (inr 40%nat, 0%nat)
  /\ sysctl_iflist addresses_only_os 40 0%nat = (inr (concat address_records), 1%nat)
  /\ (length address_records <= 2)%nat
  /\ GetNetworkMetrics addresses_only_os macos_layout 2 true 0%nat =
     (Done zero_metrics, 1%nat, primary_ok).
Proof.
  assert (Ht : Forall (fun r => ifm_type macos_layout r 0 <>
                                Some (RTM_IFINFO2 macos_layout)) address_records)
    by (repeat (constructor; [vm_compute; discriminate|]); constructor).
  assert (H1 : sysctl_size addresses_only_os 0%nat = (inr 40%nat, 0%nat))
    by (vm_compute; reflexivity).
  assert (H2 : sysctl_iflist addresses_only_os 40 0%nat =
               (inr (concat address_records), 1%nat)) by reflexivity.
  assert (H3 : (length address_records <= 2)%nat) by (simpl; lia).
  split; [exact address_records_well_formed|]. split; [exact Ht|].
  split; [exact H1|]. split; [exact H2|]. split; [exact H3|].
  exact (no_interface_records_no_traffic nat addresses_only_os macos_layout 2 true
           address_records 0%nat 0%nat 1%nat 40%nat
           address_records_well_formed Ht H1 H2 H3).
Defined.

(** Every secondary query fails: the pass stops at the first one. *)
Lemma failed_secondary_query_stops_the_pass_witness :
  Forall (fun r => well_formed macos_layout r = true) sample_records
  /\ sysctl_size failing_secondary_os 0%nat = (inr 340%nat, 0%nat)
  /\ sysctl_iflist failing_secondary_os 340 0%nat =
     (inr (concat sample_records), 1%nat)
  /\ (length sample_records <= 3)%nat
  /\ outcome_of (GetNetworkMetrics failing_secondary_os macos_layout 3 true 0%nat)
     = Exited 1
  /\ exists asked index later errno,
       generic_indices (map (classify macos_layout) sample_records) =
       asked ++ index :: later /\
       log_of (GetNetworkMetrics failing_secondary_os macos_layout 3 true 0%nat) =
       primary_ok ++ map query_ok asked ++
       [EvSysctl (IFMIB_IFDATA index) false; EvStderr "sysctl: %s\n" errno].
Proof.
  assert (H1 : sysctl_size failing_secondary_os 0%nat = (inr 340%nat, 0%nat))
    by (vm_compute; reflexivity).
  assert (H2 : sysctl_iflist failing_secondary_os 340 0%nat =
               (inr (concat sample_records), 1%nat)) by reflexivity.
  assert (H3 : (length sample_records <= 3)%nat) by (simpl; lia).
  assert (He : outcome_of (GetNetworkMetrics failing_secondary_os macos_layout 3
                             true 0%nat) = Exited 1)
    by (vm_compute; reflexivity).
  split; [exact sample_records_well_formed|]. split; [exact H1|].
  split; [exact H2|]. split; [exact H3|]. split; [exact He|].
  exact (failed_secondary_query_stops_the_pass nat failing_secondary_os
           macos_layout 3 sample_records 0%nat 0%nat 1%nat 340%nat 1
           sample_records_well_formed H1 H2 H3 He).
Defined.

(** Two iterations on the sample system. *)
Lemma each_iteration_reports_against_the_previous_sample_witness :
  main_loop sample_os macos_layout 2 3 true zero_metrics 0%nat =
  (Done second_sample, 2%nat,
   log_of (main_loop sample_os macos_layout 2 3 true zero_metrics 0%nat))
  /\ sleeps (log_of (main_loop sample_os macos_layout 2 3 true zero_metrics 0%nat))
     = [1; 1].
Proof.
  assert (H : main_loop sample_os macos_layout 2 3 true zero_metrics 0%nat =
              (Done second_sample, 2%nat,
               log_of (main_loop sample_os macos_layout 2 3 true zero_metrics
                         0%nat)))
    by (vm_compute; reflexivity).
  split; [exact H|].
  exact (proj1 (each_iteration_reports_against_the_previous_sample nat sample_os
                  macos_layout 3 true 2 zero_metrics second_sample 0%nat 2%nat _ H)).
Defined.

(** Over these two iterations the input-byte deltas add up to the total. *)
Lemma reported_deltas_add_up_witness :
  main_loop sample_os macos_layout 2 3 true zero_metrics 0%nat =
  (Done second_sample, 2%nat,
   log_of (main_loop sample_os macos_layout 2 3 true zero_metrics 0%nat))
  /\ (2 < 4)%nat
  /\ wrap64 (sum_Z (column 2 (reported
       (log_of (main_loop sample_os macos_layout 2 3 true zero_metrics 0%nat)))))
     = sub64 5000002100 0.
Proof.
  assert (H : main_loop sample_os macos_layout 2 3 true zero_metrics 0%nat =
              (Done second_sample, 2%nat,
               log_of (main_loop sample_os macos_layout 2 3 true zero_metrics
                         0%nat)))
    by (vm_compute; reflexivity).
  assert (Hk : (2 < 4)%nat) by lia.
  split; [exact H|]. split; [exact Hk|].
  exact (reported_deltas_add_up nat sample_os macos_layout 3 true 2 2 zero_metrics
           second_sample 0%nat 2%nat _ H Hk).
Defined.

(** The whole program, two iterations on the sample system. *)
Lemma first_sample_is_the_baseline_witness :
  main sample_os macos_layout 2 3 0%nat =
  (Done (mkNetworkMetrics 5000003100 7000000200 12 23), 3%nat,
   log_of (main sample_os macos_layout 2 3 0%nat))
  /\ exists first w1 t0 t1 samples,
       GetNetworkMetrics sample_os macos_layout 3 true 0%nat = (Done first, w1, t0) /\
       log_of (main sample_os macos_layout 2 3 0%nat) = t0 ++ t1 /\
       stdout_of t0 = [] /\ sleeps t0 = [] /\
       length samples = 2%nat /\
       reported (log_of (main sample_os macos_layout 2 3 0%nat)) =
       report_rows first samples /\
       last samples first = mkNetworkMetrics 5000003100 7000000200 12 23 /\
       sleeps (log_of (main sample_os macos_layout 2 3 0%nat)) = repeat 1 2.
Proof.
  assert (H : main sample_os macos_layout 2 3 0%nat =
              (Done (mkNetworkMetrics 5000003100 7000000200 12 23), 3%nat,
               log_of (main sample_os macos_layout 2 3 0%nat)))
    by (vm_compute; reflexivity).
  split; [exact H|].
  exact (first_sample_is_the_baseline nat sample_os macos_layout 2 3 _ 0%nat 3%nat
           _ H).
Defined.
